(** * ArcWelder: the arc and spline accumulators

    A shallow embedding of [segmented_arc.cpp] and [segmented_spline.cpp]:
    the fit step [try_add_point_internal_], the formatter [get_gcode] and the
    length predictor [get_gcode_length] of both shape classes, followed by
    the properties of the fit controller and of the command emitter.

    Conventions.
    - A C++ [double] is a binary64 float ([PrimFloat.float]); the built-in
      operators [+ * / < == !=] are the IEEE operations of [PrimFloat].
    - A C++ [int] is a [Z].  Signed overflow is undefined behaviour in C++
      and is not modelled: the counters and lengths are mathematical
      integers.
    - A method that mutates [*this] takes the object and returns the new
      object next to its result.
    - What the two translation units use but do not define (the helpers of
      [utilities.h], the geometry solvers, the base-class accessors) is
      either a member of an interface class below or a definition whose
      comment says that it is modelled. *)

From Stdlib Require Import ZArith List String Ascii Bool Lia.
From Stdlib Require Import Floats.PrimFloat Floats.SpecFloat Floats.FloatOps.
From Stdlib Require Import Floats.FloatAxioms.
From Stdlib Require Import Numbers.Cyclic.Int63.Uint63.
Import ListNotations.

Open Scope Z_scope.

Abbreviation double := float (only parsing).

(** The implicit conversion [int -> double] (exact on 32-bit values). *)
Definition double_of_int (n : Z) : double :=
  if n <? 0 then PrimFloat.opp (PrimFloat.of_uint63 (Uint63.of_Z (- n)))
  else PrimFloat.of_uint63 (Uint63.of_Z n).

(** ** Data model *)

(** Modelled from the spec: [printer_point] is declared outside the verified sources; the
    fields are those of the spec's Point (section 3) under the names the
    two translation units read. *)
Module printer_point.
Record t : Type := mk {
  x : double;
  y : double;
  z : double;
  e_offset : double;
  is_extruder_relative : bool;
  distance : double;
  f : double
}.
End printer_point.

(** Modelled from the spec: the [arc] struct is declared outside the verified sources; the
    fields are those of the spec's Arc curve model (section 3), and
    [get_i], [get_j] read the centre offset relative to the start point. *)
Module arc.
Record t : Type := mk {
  start_point : printer_point.t;
  end_point : printer_point.t;
  angle_radians : double;
  radius : double;
  i : double;
  j : double;
  length : double
}.
Definition get_i (a : t) : double := i a.
Definition get_j (a : t) : double := j a.
End arc.

(** Modelled from the spec: the [spline] struct is declared outside the verified sources;
    start point, end point and cumulative curve length are the members the
    accumulator reads. *)
Module spline.
Record t : Type := mk {
  start_point : printer_point.t;
  end_point : printer_point.t;
  length : double
}.
End spline.

(** Modelled from the spec: [array_list<printer_point>] (the Point Buffer of
    section 4.1) is declared outside the verified sources: an ordered sequence with append,
    removal of the most recently appended element, and count. *)
Module array_list.
Definition t : Type := list printer_point.t.
Definition count (l : t) : Z := Z.of_nat (List.length l).
Definition push_back (l : t) (p : printer_point.t) : t := l ++ [p].
Definition pop_back (l : t) : t := removelast l.
End array_list.

(** Modelled from the spec: the members of the base class [segmented_shape]
    (declared outside the verified sources) that the two subclasses read or write: the
    buffer, the running original length, the shape flag, the configuration
    and the two rejection counters. *)
Record segmented_shape : Type := mk_shape {
  points_ : array_list.t;
  original_shape_length_ : double;
  e_relative_ : double;
  is_shape_ : bool;
  allow_3d_shapes_ : bool;
  min_segments_ : Z;
  mm_per_segment_ : double;
  resolution_mm_ : double;
  path_tolerance_percent_ : double;
  max_gcode_length_ : Z;
  xyz_precision_ : Z;
  e_precision_ : Z;
  xyz_tolerance_ : double;
  num_gcode_length_exceptions_ : Z;
  num_firmware_compensations_ : Z
}.

(** Modelled from the spec: the accessors of [segmented_shape] return the
    member of the same name; [set_is_shape] writes the shape flag. *)
Definition get_min_segments (b : segmented_shape) : Z := min_segments_ b.
Definition get_xyz_tolerance (b : segmented_shape) : double := xyz_tolerance_ b.
Definition get_xyz_precision (b : segmented_shape) : Z := xyz_precision_ b.
Definition get_e_precision (b : segmented_shape) : Z := e_precision_ b.
Definition is_shape (b : segmented_shape) : bool := is_shape_ b.

(** Assignments to single members. *)
Definition set_points (b : segmented_shape) (v : array_list.t) : segmented_shape :=
  mk_shape v (original_shape_length_ b) (e_relative_ b) (is_shape_ b)
    (allow_3d_shapes_ b) (min_segments_ b) (mm_per_segment_ b)
    (resolution_mm_ b) (path_tolerance_percent_ b) (max_gcode_length_ b)
    (xyz_precision_ b) (e_precision_ b) (xyz_tolerance_ b)
    (num_gcode_length_exceptions_ b) (num_firmware_compensations_ b).

Definition set_original_shape_length (b : segmented_shape) (v : double) : segmented_shape :=
  mk_shape (points_ b) v (e_relative_ b) (is_shape_ b)
    (allow_3d_shapes_ b) (min_segments_ b) (mm_per_segment_ b)
    (resolution_mm_ b) (path_tolerance_percent_ b) (max_gcode_length_ b)
    (xyz_precision_ b) (e_precision_ b) (xyz_tolerance_ b)
    (num_gcode_length_exceptions_ b) (num_firmware_compensations_ b).

Definition set_is_shape (b : segmented_shape) (v : bool) : segmented_shape :=
  mk_shape (points_ b) (original_shape_length_ b) (e_relative_ b) v
    (allow_3d_shapes_ b) (min_segments_ b) (mm_per_segment_ b)
    (resolution_mm_ b) (path_tolerance_percent_ b) (max_gcode_length_ b)
    (xyz_precision_ b) (e_precision_ b) (xyz_tolerance_ b)
    (num_gcode_length_exceptions_ b) (num_firmware_compensations_ b).

Definition set_num_gcode_length_exceptions (b : segmented_shape) (v : Z) : segmented_shape :=
  mk_shape (points_ b) (original_shape_length_ b) (e_relative_ b) (is_shape_ b)
    (allow_3d_shapes_ b) (min_segments_ b) (mm_per_segment_ b)
    (resolution_mm_ b) (path_tolerance_percent_ b) (max_gcode_length_ b)
    (xyz_precision_ b) (e_precision_ b) (xyz_tolerance_ b)
    v (num_firmware_compensations_ b).

Definition set_num_firmware_compensations (b : segmented_shape) (v : Z) : segmented_shape :=
  mk_shape (points_ b) (original_shape_length_ b) (e_relative_ b) (is_shape_ b)
    (allow_3d_shapes_ b) (min_segments_ b) (mm_per_segment_ b)
    (resolution_mm_ b) (path_tolerance_percent_ b) (max_gcode_length_ b)
    (xyz_precision_ b) (e_precision_ b) (xyz_tolerance_ b)
    (num_gcode_length_exceptions_ b) v.

(** ** Interfaces of the code outside the verified sources *)

(** The helpers of [utilities.h] that the two translation units call.
    [precision] arguments are [unsigned char] in the source. *)
Class Utilities : Type := {
  PI_DOUBLE : double;
  floor : double -> double;
  is_zero : double -> double -> bool;
  is_equal : double -> double -> double -> bool;
  greater_than_or_equal : double -> double -> bool;
  dtos : double -> Z -> string;
  get_num_digits : double -> Z -> Z
}.

(** The conversion [(int)d] of a [double]: truncation toward zero where the
    result fits an [int], undefined elsewhere; the development holds for
    every behaviour of it. *)
Class Conversion : Type := {
  int_of_double : double -> Z
}.

(** [arc::try_create_arc(points, target_arc, approximate_length,
    max_radius_mm, resolution_mm, path_tolerance_percent, xyz_tolerance,
    allow_3d_arcs)]: the result and the value of [target_arc] (an in/out
    reference) when it returns. *)
Class ArcSolver : Type := {
  try_create_arc :
    array_list.t -> arc.t -> double -> double -> double -> double -> double ->
    bool -> bool * arc.t
}.

(** [spline::try_create_spline(&points, &target_spline, approximate_length,
    resolution_mm, path_tolerance_percent, min_segments, mm_per_segment,
    xyz_tolerance)]: the result and the value of [*target_spline] when it
    returns.  The buffer is passed by address; as for the arc solver, which
    takes it by const reference, the solver reads it only (section 4.3:
    same calling contract). *)
Class SplineSolver : Type := {
  try_create_spline :
    array_list.t -> spline.t -> double -> double -> double -> Z -> double ->
    double -> bool * spline.t
}.

(** The contract of section 4.2 and 4.3: a solver populates the candidate
    curve model on success only. *)
Definition arc_solver_writes_on_success_only `{ArcSolver} : Prop :=
  forall pts a len maxr res tol_pct tol allow3d,
    fst (try_create_arc pts a len maxr res tol_pct tol allow3d) = false ->
    snd (try_create_arc pts a len maxr res tol_pct tol allow3d) = a.

Definition spline_solver_writes_on_success_only `{SplineSolver} : Prop :=
  forall pts sp len res tol_pct minseg mmseg tol,
    fst (try_create_spline pts sp len res tol_pct minseg mmseg tol) = false ->
    snd (try_create_spline pts sp len res tol_pct minseg mmseg tol) = sp.

Definition bool_to_int (b : bool) : Z := if b then 1 else 0.

(** ** [segmented_arc] *)

Record segmented_arc : Type := mk_segmented_arc {
  arc_base : segmented_shape;
  current_arc_ : arc.t;
  max_radius_mm_ : double
}.

Definition set_arc_base (s : segmented_arc) (b : segmented_shape) : segmented_arc :=
  mk_segmented_arc b (current_arc_ s) (max_radius_mm_ s).

Definition set_current_arc (s : segmented_arc) (a : arc.t) : segmented_arc :=
  mk_segmented_arc (arc_base s) a (max_radius_mm_ s).

Module Arc.
Section WithHelpers.
Context {U : Utilities} {C : Conversion} {Solver : ArcSolver}.

(** [segmented_arc::get_length] *)
Definition get_length (s : segmented_arc) : double :=
  arc.length (current_arc_ s).

(** [segmented_arc::get_gcode] *)
Definition get_gcode (s : segmented_arc) : string :=
  let b := arc_base s in
  let current_arc_ := current_arc_ s in
  let gcode := EmptyString in
  let e := if printer_point.is_extruder_relative (arc.end_point current_arc_)
           then e_relative_ b
           else printer_point.e_offset (arc.end_point current_arc_) in
  let f := if (printer_point.f (arc.start_point current_arc_)
               =? printer_point.f (arc.end_point current_arc_))%float
           then 0%float
           else printer_point.f (arc.end_point current_arc_) in
  let has_e := negb (e_relative_ b =? 0)%float in
  let has_f := greater_than_or_equal f 1%float in
  let has_z := allow_3d_shapes_ b && negb (is_equal
    (printer_point.z (arc.start_point current_arc_))
    (printer_point.z (arc.end_point current_arc_)) (get_xyz_tolerance b)) in
  let gcode :=
    if (arc.angle_radians current_arc_ <? 0)%float
    then (gcode ++ "G2")%string
    else (gcode ++ "G3")%string in
  let gcode := (gcode ++ " X")%string in
  let gcode := (gcode ++ dtos (printer_point.x (arc.end_point current_arc_))
                             (get_xyz_precision b))%string in
  let gcode := (gcode ++ " Y")%string in
  let gcode := (gcode ++ dtos (printer_point.y (arc.end_point current_arc_))
                             (get_xyz_precision b))%string in
  let gcode :=
    if has_z
    then ((gcode ++ " Z") ++ dtos (printer_point.z (arc.end_point current_arc_))
                                  (get_xyz_precision b))%string
    else gcode in
  let i := arc.get_i current_arc_ in
  let gcode := (gcode ++ " I")%string in
  let gcode := (gcode ++ dtos i (get_xyz_precision b))%string in
  let j := arc.get_j current_arc_ in
  let gcode := (gcode ++ " J")%string in
  let gcode := (gcode ++ dtos j (get_xyz_precision b))%string in
  let gcode :=
    if has_e
    then ((gcode ++ " E") ++ dtos e (get_e_precision b))%string
    else gcode in
  let gcode :=
    if has_f
    then ((gcode ++ " F") ++ dtos f 0)%string
    else gcode in
  gcode.

(** [segmented_arc::get_gcode_length] (the [#ifdef Debug] block is not
    compiled in). *)
Definition get_gcode_length (s : segmented_arc) : Z :=
  let b := arc_base s in
  let current_arc_ := current_arc_ s in
  let e := if printer_point.is_extruder_relative (arc.end_point current_arc_)
           then e_relative_ b
           else printer_point.e_offset (arc.end_point current_arc_) in
  let f := if (printer_point.f (arc.start_point current_arc_)
               =? printer_point.f (arc.end_point current_arc_))%float
           then 0%float
           else printer_point.f (arc.end_point current_arc_) in
  let has_e := negb (e_relative_ b =? 0)%float in
  let has_f := greater_than_or_equal f 1%float in
  let has_z := allow_3d_shapes_ b && negb (is_equal
    (printer_point.z (arc.start_point current_arc_))
    (printer_point.z (arc.end_point current_arc_)) (get_xyz_tolerance b)) in
  let xyz_precision := get_xyz_precision b in
  let e_precision := get_e_precision b in
  let i := arc.get_i current_arc_ in
  let j := arc.get_j current_arc_ in
  let num_spaces :=
    4 + (if has_z then 1 else 0) + (if has_e then 1 else 0)
      + (if has_f then 1 else 0) in
  let num_decimal_points :=
    4 + (if has_z then 1 else 0) + (if has_e then 1 else 0) in
  let num_decimals :=
    xyz_precision * (4 + (if has_z then 1 else 0))
    + e_precision * (if has_e then 1 else 0) in
  let num_digits :=
    get_num_digits (printer_point.x (arc.end_point current_arc_)) xyz_precision
    + get_num_digits (printer_point.y (arc.end_point current_arc_)) xyz_precision
    + (if has_z
       then get_num_digits (printer_point.z (arc.end_point current_arc_)) xyz_precision
       else 0)
    + (if has_e then get_num_digits e e_precision else 0)
    + get_num_digits i xyz_precision
    + get_num_digits j xyz_precision
    + (if has_f then get_num_digits f 0 else 0) in
  let num_minus_signs :=
    (if (printer_point.x (arc.end_point current_arc_) <? 0)%float then 1 else 0)
    + (if (printer_point.y (arc.end_point current_arc_) <? 0)%float then 1 else 0)
    + (if (i <? 0)%float then 1 else 0)
    + (if (j <? 0)%float then 1 else 0)
    + (if has_e && (e <? 0)%float then 1 else 0)
    + (if has_z && (printer_point.z (arc.end_point current_arc_) <? 0)%float
       then 1 else 0) in
  let num_parameters :=
    4 + (if has_e then 1 else 0) + (if has_z then 1 else 0)
      + (if has_f then 1 else 0) in
  let gcode_length :=
    2 + num_spaces + num_decimal_points + num_digits + num_minus_signs
      + num_decimals + num_parameters in
  gcode_length.

(** The last three statements of [try_add_point_internal_], reached when
    the solver fails and when a filter aborts the arc: pop the candidate
    and restore the length accumulator. *)
Definition remove_point (s : segmented_arc) (previous_shape_length : double)
  : bool * segmented_arc :=
  let s := set_arc_base s
             (set_points (arc_base s) (array_list.pop_back (points_ (arc_base s)))) in
  let s := set_arc_base s
             (set_original_shape_length (arc_base s) previous_shape_length) in
  (false, s).

(** [segmented_arc::try_add_point_internal_] *)
Definition try_add_point_internal_ (s : segmented_arc) (p : printer_point.t)
  : bool * segmented_arc :=
  if array_list.count (points_ (arc_base s)) <? get_min_segments (arc_base s) - 1
  then (false, s)
  else
    let s := set_arc_base s
               (set_points (arc_base s) (array_list.push_back (points_ (arc_base s)) p)) in
    let previous_shape_length := original_shape_length_ (arc_base s) in
    let s := set_arc_base s
               (set_original_shape_length (arc_base s)
                  (original_shape_length_ (arc_base s) + printer_point.distance p)%float) in
    let original_arc := current_arc_ s in
    let created :=
      try_create_arc (points_ (arc_base s)) (current_arc_ s)
        (original_shape_length_ (arc_base s)) (max_radius_mm_ s)
        (resolution_mm_ (arc_base s)) (path_tolerance_percent_ (arc_base s))
        (get_xyz_tolerance (arc_base s)) (allow_3d_shapes_ (arc_base s)) in
    let s := set_current_arc s (snd created) in
    if fst created then
      let abort_arc := false in
      let '(abort_arc, s) :=
        if (0 <? max_gcode_length_ (arc_base s))
           && (max_gcode_length_ (arc_base s) <? get_gcode_length s)
        then (true,
              set_arc_base s (set_num_gcode_length_exceptions (arc_base s)
                (num_gcode_length_exceptions_ (arc_base s) + 1)))
        else (abort_arc, s) in
      let '(abort_arc, s) :=
        if (0 <? min_segments_ (arc_base s))
           && (0 <? mm_per_segment_ (arc_base s))%float
        then
          let circumference :=
            (2.0 * PI_DOUBLE * arc.radius (current_arc_ s))%float in
          let num_segments :=
            int_of_double
              (floor (circumference / double_of_int (min_segments_ (arc_base s)))%float) in
          if num_segments <? min_segments_ (arc_base s) then
            let num_segments :=
              int_of_double
                (floor (circumference / original_shape_length_ (arc_base s))%float) in
            if num_segments <? min_segments_ (arc_base s)
            then (true,
                  set_arc_base s (set_num_firmware_compensations (arc_base s)
                    (num_firmware_compensations_ (arc_base s) + 1)))
            else (abort_arc, s)
          else (abort_arc, s)
        else (abort_arc, s) in
      let abort_arc :=
        if negb abort_arc then
          if is_zero (arc.get_i (current_arc_ s)) (get_xyz_tolerance (arc_base s))
             && is_zero (arc.get_j (current_arc_ s)) (get_xyz_tolerance (arc_base s))
          then true
          else if (arc.length (current_arc_ s) <? get_xyz_tolerance (arc_base s))%float
          then true
          else abort_arc
        else abort_arc in
      if abort_arc then
        let s := set_current_arc s original_arc in
        remove_point s previous_shape_length
      else
        let s :=
          if negb (is_shape (arc_base s))
          then set_arc_base s (set_is_shape (arc_base s) true)
          else s in
        (true, s)
    else remove_point s previous_shape_length.

(** *** Vocabulary for the properties below *)

(** The accumulator as the solver sees it: candidate appended, length
    accumulator advanced. *)
Definition with_candidate (s : segmented_arc) (p : printer_point.t) : segmented_arc :=
  set_arc_base s
    (set_original_shape_length
       (set_points (arc_base s) (array_list.push_back (points_ (arc_base s)) p))
       (original_shape_length_ (arc_base s) + printer_point.distance p)%float).

(** The solver's answer on the candidate. *)
Definition solve (s : segmented_arc) (p : printer_point.t) : bool * arc.t :=
  let c := with_candidate s p in
  try_create_arc (points_ (arc_base c)) (current_arc_ c)
    (original_shape_length_ (arc_base c)) (max_radius_mm_ c)
    (resolution_mm_ (arc_base c)) (path_tolerance_percent_ (arc_base c))
    (get_xyz_tolerance (arc_base c)) (allow_3d_shapes_ (arc_base c)).

(** The accumulator on which the post-fit filters are evaluated. *)
Definition fitted (s : segmented_arc) (p : printer_point.t) : segmented_arc :=
  set_current_arc (with_candidate s p) (snd (solve s p)).

(** Fewer than [min_segments - 1] points are buffered. *)
Definition too_few_points (s : segmented_arc) : bool :=
  array_list.count (points_ (arc_base s)) <? get_min_segments (arc_base s) - 1.

Definition circumference (s : segmented_arc) : double :=
  (2.0 * PI_DOUBLE * arc.radius (current_arc_ s))%float.

(** [floor(circumference / min_segments)] and
    [floor(circumference / original_shape_length)]. *)
Definition segments_by_count (s : segmented_arc) : Z :=
  int_of_double
    (floor (circumference s / double_of_int (min_segments_ (arc_base s)))%float).

Definition segments_by_length (s : segmented_arc) : Z :=
  int_of_double
    (floor (circumference s / original_shape_length_ (arc_base s))%float).

(** The three post-fit filters, as decisions on the fitted accumulator. *)
Definition exceeds_max_gcode_length (s : segmented_arc) : bool :=
  (0 <? max_gcode_length_ (arc_base s))
  && (max_gcode_length_ (arc_base s) <? get_gcode_length s).

Definition firmware_guard (s : segmented_arc) : bool :=
  (0 <? min_segments_ (arc_base s)) && (0 <? mm_per_segment_ (arc_base s))%float.

Definition too_few_segments (s : segmented_arc) : bool :=
  (segments_by_count s <? min_segments_ (arc_base s))
  && (segments_by_length s <? min_segments_ (arc_base s)).

Definition degenerate (s : segmented_arc) : bool :=
  (is_zero (arc.get_i (current_arc_ s)) (get_xyz_tolerance (arc_base s))
   && is_zero (arc.get_j (current_arc_ s)) (get_xyz_tolerance (arc_base s)))
  || (arc.length (current_arc_ s) <? get_xyz_tolerance (arc_base s))%float.

(** A sequence of calls on one accumulator. *)
Fixpoint add_points (s : segmented_arc) (ps : list printer_point.t) : segmented_arc :=
  match ps with
  | [] => s
  | p :: ps' => add_points (snd (try_add_point_internal_ s p)) ps'
  end.

End WithHelpers.
End Arc.

(** ** [segmented_spline] *)

Record segmented_spline : Type := mk_segmented_spline {
  spline_base : segmented_shape;
  current_spline_ : spline.t
}.

Definition set_spline_base (s : segmented_spline) (b : segmented_shape) : segmented_spline :=
  mk_segmented_spline b (current_spline_ s).

Definition set_current_spline (s : segmented_spline) (c : spline.t) : segmented_spline :=
  mk_segmented_spline (spline_base s) c.

Module Spline.
Section WithHelpers.
Context {U : Utilities} {Solver : SplineSolver}.

(** [segmented_spline::get_length] *)
Definition get_length (s : segmented_spline) : double :=
  spline.length (current_spline_ s).

(** [segmented_spline::get_gcode] *)
Definition get_gcode (s : segmented_spline) : string :=
  let b := spline_base s in
  let current_spline_ := current_spline_ s in
  let e := if printer_point.is_extruder_relative (spline.end_point current_spline_)
           then e_relative_ b
           else printer_point.e_offset (spline.end_point current_spline_) in
  let f := if (printer_point.f (spline.start_point current_spline_)
               =? printer_point.f (spline.end_point current_spline_))%float
           then 0%float
           else printer_point.f (spline.end_point current_spline_) in
  let has_e := negb (e_relative_ b =? 0)%float in
  let has_f := greater_than_or_equal f 1%float in
  let has_z := negb (is_equal
    (printer_point.z (spline.start_point current_spline_))
    (printer_point.z (spline.end_point current_spline_)) (get_xyz_tolerance b)) in
  let gcode := EmptyString in
  let gcode := (gcode ++ "G5")%string in
  let gcode := (gcode ++ " X")%string in
  let gcode := (gcode ++ dtos (printer_point.x (spline.end_point current_spline_))
                             (get_xyz_precision b))%string in
  let gcode := (gcode ++ " Y")%string in
  let gcode := (gcode ++ dtos (printer_point.y (spline.end_point current_spline_))
                             (get_xyz_precision b))%string in
  let gcode :=
    if has_z
    then ((gcode ++ " Z") ++ dtos (printer_point.z (spline.end_point current_spline_))
                                  (get_xyz_precision b))%string
    else gcode in
  let gcode :=
    if has_e
    then ((gcode ++ " E") ++ dtos e (get_e_precision b))%string
    else gcode in
  let gcode :=
    if has_f
    then ((gcode ++ " F") ++ dtos f 0)%string
    else gcode in
  gcode.

(** [segmented_spline::get_gcode_length] (the [#ifdef Debug] block is not
    compiled in). *)
Definition get_gcode_length (s : segmented_spline) : Z :=
  let b := spline_base s in
  let current_spline_ := current_spline_ s in
  let e := if printer_point.is_extruder_relative (spline.end_point current_spline_)
           then e_relative_ b
           else printer_point.e_offset (spline.end_point current_spline_) in
  let f := if (printer_point.f (spline.start_point current_spline_)
               =? printer_point.f (spline.end_point current_spline_))%float
           then 0%float
           else printer_point.f (spline.end_point current_spline_) in
  let has_e := negb (e_relative_ b =? 0)%float in
  let has_f := greater_than_or_equal f 1%float in
  let has_z := negb (is_equal
    (printer_point.z (spline.start_point current_spline_))
    (printer_point.z (spline.end_point current_spline_)) (get_xyz_tolerance b)) in
  let xyz_precision := get_xyz_precision b in
  let e_precision := get_e_precision b in
  let i := 0.0%float in
  let j := 0.0%float in
  let p := 0.0%float in
  let q := 0.0%float in
  let num_spaces :=
    4 + (if has_z then 1 else 0) + (if has_e then 1 else 0)
      + (if has_f then 1 else 0) in
  let num_decimal_points :=
    4 + (if has_z then 1 else 0) + (if has_e then 1 else 0) in
  let num_decimals :=
    xyz_precision * (4 + (if has_z then 1 else 0))
    + e_precision * (if has_e then 1 else 0) in
  let num_digits :=
    get_num_digits (printer_point.x (spline.end_point current_spline_)) xyz_precision
    + get_num_digits (printer_point.y (spline.end_point current_spline_)) xyz_precision
    + (if has_z
       then get_num_digits (printer_point.z (spline.end_point current_spline_)) xyz_precision
       else 0)
    + (if has_e then get_num_digits e e_precision else 0)
    + get_num_digits i xyz_precision
    + get_num_digits j xyz_precision
    + get_num_digits p xyz_precision
    + get_num_digits q xyz_precision
    + (if has_f then get_num_digits f 0 else 0) in
  let num_minus_signs :=
    (if (printer_point.x (spline.end_point current_spline_) <? 0)%float then 1 else 0)
    + (if (printer_point.y (spline.end_point current_spline_) <? 0)%float then 1 else 0)
    + (if (i <? 0)%float then 1 else 0)
    + (if (j <? 0)%float then 1 else 0)
    + (if (p <? 0)%float then 1 else 0)
    + (if (q <? 0)%float then 1 else 0)
    + (if has_e && (e <? 0)%float then 1 else 0)
    + (if has_z && (printer_point.z (spline.end_point current_spline_) <? 0)%float
       then 1 else 0) in
  let num_parameters :=
    6 + (if has_e then 1 else 0) + (if has_z then 1 else 0)
      + (if has_f then 1 else 0) in
  let gcode_length :=
    2 + num_spaces + num_decimal_points + num_digits + num_minus_signs
      + num_decimals + num_parameters in
  gcode_length.

(** The last three statements of [try_add_point_internal_]: pop the
    candidate and restore the length accumulator. *)
Definition remove_point (s : segmented_spline) (previous_shape_length : double)
  : bool * segmented_spline :=
  let s := set_spline_base s
             (set_points (spline_base s)
                (array_list.pop_back (points_ (spline_base s)))) in
  let s := set_spline_base s
             (set_original_shape_length (spline_base s) previous_shape_length) in
  (false, s).

(** [segmented_spline::try_add_point_internal_] *)
Definition try_add_point_internal_ (s : segmented_spline) (p : printer_point.t)
  : bool * segmented_spline :=
  if array_list.count (points_ (spline_base s))
     <? get_min_segments (spline_base s) - 1
  then (false, s)
  else
    let s := set_spline_base s
               (set_points (spline_base s)
                  (array_list.push_back (points_ (spline_base s)) p)) in
    let previous_shape_length := original_shape_length_ (spline_base s) in
    let s := set_spline_base s
               (set_original_shape_length (spline_base s)
                  (original_shape_length_ (spline_base s)
                   + printer_point.distance p)%float) in
    let original_spline := current_spline_ s in
    let created :=
      try_create_spline (points_ (spline_base s)) (current_spline_ s)
        (original_shape_length_ (spline_base s))
        (resolution_mm_ (spline_base s))
        (path_tolerance_percent_ (spline_base s))
        (min_segments_ (spline_base s)) (mm_per_segment_ (spline_base s))
        (get_xyz_tolerance (spline_base s)) in
    let s := set_current_spline s (snd created) in
    if fst created then
      let abort_spline := false in
      let '(abort_spline, s) :=
        if (0 <? max_gcode_length_ (spline_base s))
           && (max_gcode_length_ (spline_base s) <? get_gcode_length s)
        then (true,
              set_spline_base s (set_num_gcode_length_exceptions (spline_base s)
                (num_gcode_length_exceptions_ (spline_base s) + 1)))
        else (abort_spline, s) in
      let abort_spline :=
        if negb abort_spline then
          if (spline.length (current_spline_ s)
              <? get_xyz_tolerance (spline_base s))%float
          then true
          else abort_spline
        else abort_spline in
      if abort_spline then
        let s := set_current_spline s original_spline in
        remove_point s previous_shape_length
      else
        let s :=
          if negb (is_shape (spline_base s))
          then set_spline_base s (set_is_shape (spline_base s) true)
          else s in
        (true, s)
    else remove_point s previous_shape_length.

(** *** Vocabulary for the properties below *)

Definition with_candidate (s : segmented_spline) (p : printer_point.t)
  : segmented_spline :=
  set_spline_base s
    (set_original_shape_length
       (set_points (spline_base s)
          (array_list.push_back (points_ (spline_base s)) p))
       (original_shape_length_ (spline_base s) + printer_point.distance p)%float).

Definition solve (s : segmented_spline) (p : printer_point.t) : bool * spline.t :=
  let c := with_candidate s p in
  try_create_spline (points_ (spline_base c)) (current_spline_ c)
    (original_shape_length_ (spline_base c))
    (resolution_mm_ (spline_base c)) (path_tolerance_percent_ (spline_base c))
    (min_segments_ (spline_base c)) (mm_per_segment_ (spline_base c))
    (get_xyz_tolerance (spline_base c)).

Definition fitted (s : segmented_spline) (p : printer_point.t) : segmented_spline :=
  set_current_spline (with_candidate s p) (snd (solve s p)).

Definition too_few_points (s : segmented_spline) : bool :=
  array_list.count (points_ (spline_base s))
  <? get_min_segments (spline_base s) - 1.

Definition exceeds_max_gcode_length (s : segmented_spline) : bool :=
  (0 <? max_gcode_length_ (spline_base s))
  && (max_gcode_length_ (spline_base s) <? get_gcode_length s).

Definition too_short (s : segmented_spline) : bool :=
  (spline.length (current_spline_ s) <? get_xyz_tolerance (spline_base s))%float.

Fixpoint add_points (s : segmented_spline) (ps : list printer_point.t)
  : segmented_spline :=
  match ps with
  | [] => s
  | p :: ps' => add_points (snd (try_add_point_internal_ s p)) ps'
  end.

End WithHelpers.
End Spline.

(** ** The public entry point *)

(** Modelled from the spec: [segmented_shape::try_add_point], the public
    operation of section 6 that calls the protected
    [try_add_point_internal_] of the subclass, is outside the verified
    sources.  Section 4.4, step 1: with fewer than [min_segments - 1]
    points buffered the point is accepted by buffering it; otherwise the
    fit step decides.  Section 4.1: an append adds the point's distance to
    the running original shape length.  [base] and [set_base] reach the
    base-class members of the subclass object, the third argument is the
    subclass's fit step. *)
Definition try_add_point {T : Type}
  (base : T -> segmented_shape) (set_base : T -> segmented_shape -> T)
  (try_add_point_internal_ : T -> printer_point.t -> bool * T)
  (s : T) (p : printer_point.t) : bool * T :=
  if array_list.count (points_ (base s)) <? get_min_segments (base s) - 1
  then
    let s := set_base s
               (set_points (base s) (array_list.push_back (points_ (base s)) p)) in
    let s := set_base s
               (set_original_shape_length (base s)
                  (original_shape_length_ (base s) + printer_point.distance p)%float) in
    (true, s)
  else try_add_point_internal_ s p.

(** The operation on the two subclasses. *)
Definition arc_try_add_point
  {U : Utilities} {C : Conversion} {Solver : ArcSolver}
  (s : segmented_arc) (p : printer_point.t) : bool * segmented_arc :=
  try_add_point arc_base set_arc_base Arc.try_add_point_internal_ s p.

Definition spline_try_add_point
  {U : Utilities} {Solver : SplineSolver}
  (s : segmented_spline) (p : printer_point.t) : bool * segmented_spline :=
  try_add_point spline_base set_spline_base Spline.try_add_point_internal_ s p.

(** ** A reference implementation of the interfaces

    Executable stand-ins for the helpers and the solvers, used to run the
    embedding on concrete inputs. *)

Module Reference.

(** The magnitude of [v] scaled by [10^p] and rounded half up:
    [round (|v| * 10^p)], exact on the binary expansion of [v]. *)
Definition scaled (v : double) (p : Z) : Z :=
  match Prim2SF v with
  | S754_finite _ m e =>
      let n := Z.pos m * 10 ^ p in
      if 0 <=? e then n * 2 ^ e
      else (2 * n + 2 ^ (- e)) / (2 * 2 ^ (- e))
  | _ => 0
  end.

(** [floor v] as an integer, for finite [v]. *)
Definition floor_Z (v : double) : option Z :=
  match Prim2SF v with
  | S754_zero _ => Some 0
  | S754_finite s m e =>
      let q := if 0 <=? e then Z.pos m * 2 ^ e else Z.pos m / 2 ^ (- e) in
      let exact := if 0 <=? e then true else Z.pos m mod 2 ^ (- e) =? 0 in
      Some (if s then (if exact then - q else - q - 1) else q)
  | _ => None
  end.

(** Truncation toward zero, for finite [v]; 0 elsewhere. *)
Definition trunc_Z (v : double) : Z :=
  match Prim2SF v with
  | S754_finite s m e =>
      let q := if 0 <=? e then Z.pos m * 2 ^ e else Z.pos m / 2 ^ (- e) in
      if s then - q else q
  | _ => 0
  end.

(** Modelled from the spec: [utilities::floor] is outside the verified
    sources; the floor of section 4.4, step 4b. *)
Definition ref_floor (v : double) : double :=
  match floor_Z v with
  | Some n => if Z.abs n <? 2 ^ 53 then double_of_int n else v
  | None => v
  end.

(** Modelled from the spec: [utilities::is_zero], [is_equal] and
    [greater_than_or_equal] are outside the verified sources; "within
    numeric tolerance of zero", "differs by more than numeric tolerance" and
    ">= 1" of sections 4.4 and 4.5, the last with a tolerance of 2^-40. *)
Definition ref_is_zero (v tolerance : double) : bool :=
  (PrimFloat.abs v <? tolerance)%float.

Definition ref_is_equal (v w tolerance : double) : bool :=
  (PrimFloat.abs (v - w) <? tolerance)%float.

Definition ref_greater_than_or_equal (v w : double) : bool :=
  ref_is_equal v w 0x1p-40%float || (w <? v)%float.

Definition digit_chars : list ascii :=
  ["0"; "1"; "2"; "3"; "4"; "5"; "6"; "7"; "8"; "9"]%char.

Definition digit (d : Z) : ascii := nth (Z.to_nat d) digit_chars "0"%char.

(** The decimal digits of [n >= 0], most significant first. *)
Fixpoint int_digits (fuel : nat) (n : Z) : string :=
  match fuel with
  | O => String (digit n) EmptyString
  | S k =>
      if n <? 10 then String (digit n) EmptyString
      else (int_digits k (n / 10) ++ String (digit (n mod 10)) EmptyString)%string
  end.

(** The number of decimal digits of [n >= 0]. *)
Fixpoint count_digits (fuel : nat) (n : Z) : Z :=
  match fuel with
  | O => 1
  | S k => if n <? 10 then 1 else count_digits k (n / 10) + 1
  end.

(** Exactly [k] decimal digits: [n] modulo [10^k], zero padded. *)
Fixpoint frac_digits (k : nat) (n : Z) : string :=
  match k with
  | O => EmptyString
  | S k' =>
      (frac_digits k' (n / 10) ++ String (digit (n mod 10)) EmptyString)%string
  end.

Definition digit_fuel (n : Z) : nat := Z.to_nat (Z.log2 n).

(** Modelled from the spec: [utilities::dtos] is outside the verified
    sources; fixed-point rendering with [precision] decimals, a minus sign
    for negative values and no decimal point at precision 0 (section 4.5:
    values at the configured precision, feed rate with zero decimal
    places). *)
Definition ref_dtos (v : double) (precision : Z) : string :=
  let n := scaled v precision in
  let whole := n / 10 ^ precision in
  ((if (v <? 0)%float then "-" else EmptyString)
   ++ int_digits (digit_fuel whole) whole
   ++ (if (precision =? 0)%Z then EmptyString
       else "." ++ frac_digits (Z.to_nat precision) (n mod 10 ^ precision)))%string.

(** Modelled from the spec: [utilities::get_num_digits] is outside the
    verified sources; the number of digits before the decimal point of the
    value rendered at [precision] (section 4.5: digit counts computed from
    each value's magnitude and configured precision). *)
Definition ref_get_num_digits (v : double) (precision : Z) : Z :=
  let whole := scaled v precision / 10 ^ precision in
  count_digits (digit_fuel whole) whole.

#[export] Instance utilities : Utilities := {
  PI_DOUBLE := 0x1.921fb54442d18p+1%float;
  floor := ref_floor;
  is_zero := ref_is_zero;
  is_equal := ref_is_equal;
  greater_than_or_equal := ref_greater_than_or_equal;
  dtos := ref_dtos;
  get_num_digits := ref_get_num_digits
}.

#[export] Instance conversion : Conversion := {
  int_of_double := trunc_Z
}.

Definition sq (v : double) : double := (v * v)%float.

(** A stand-in arc solver: the circle through the first, the middle and
    the last buffered point; fails on fewer than three points, on
    collinear points and on a radius above [max_radius_mm]; the target is
    written on success only. *)
Definition circle_through_three
  (pts : array_list.t) (target : arc.t)
  (approximate_length max_radius_mm resolution_mm path_tolerance_percent
     xyz_tolerance : double) (allow_3d_arcs : bool) : bool * arc.t :=
  match pts with
  | p0 :: _ :: _ :: _ =>
      let pm := nth (Nat.div (List.length pts) 2) pts p0 in
      let pn := last pts p0 in
      let ax := printer_point.x p0 in
      let ay := printer_point.y p0 in
      let bx := printer_point.x pm in
      let b_y := printer_point.y pm in
      let cx := printer_point.x pn in
      let cy := printer_point.y pn in
      let d := (2 * (ax * (b_y - cy) + bx * (cy - ay) + cx * (ay - b_y)))%float in
      if ref_is_zero d xyz_tolerance then (false, target)
      else
        let a2 := (sq ax + sq ay)%float in
        let b2 := (sq bx + sq b_y)%float in
        let c2 := (sq cx + sq cy)%float in
        let ux := ((a2 * (b_y - cy) + b2 * (cy - ay) + c2 * (ay - b_y)) / d)%float in
        let uy := ((a2 * (cx - bx) + b2 * (ax - cx) + c2 * (bx - ax)) / d)%float in
        let r := PrimFloat.sqrt (sq (ax - ux) + sq (ay - uy)) in
        if (max_radius_mm <? r)%float then (false, target)
        else
          let angle := if (0 <? d)%float
                       then (approximate_length / r)%float
                       else (- (approximate_length / r))%float in
          (true, arc.mk p0 pn angle r (ux - ax)%float (uy - ay)%float
                   approximate_length)
  | _ => (false, target)
  end.

#[export] Instance arc_solver : ArcSolver := {
  try_create_arc := circle_through_three
}.

(** A stand-in spline solver: succeeds on two or more points with the
    first and the last as end points; the target is written on success
    only. *)
Definition chord_spline
  (pts : array_list.t) (target : spline.t)
  (approximate_length resolution_mm path_tolerance_percent : double)
  (min_segments : Z) (mm_per_segment xyz_tolerance : double)
  : bool * spline.t :=
  match pts with
  | p0 :: _ :: _ => (true, spline.mk p0 (last pts p0) approximate_length)
  | _ => (false, target)
  end.

#[export] Instance spline_solver : SplineSolver := {
  try_create_spline := chord_spline
}.

End Reference.

(** ** Vocabulary for the command emitter *)

(** The characters of a command. *)
Definition emits (c : ascii) (gcode : string) : Prop :=
  In c (list_ascii_of_string gcode).

(** The characters a rendered number is made of. *)
Definition numeric_chars : list ascii :=
  ["-"; "."; "0"; "1"; "2"; "3"; "4"; "5"; "6"; "7"; "8"; "9"]%char.

(** [dtos] renders numbers: it produces no other character. *)
Definition dtos_is_numeric `{Utilities} : Prop :=
  forall v precision c, emits c (dtos v precision) -> In c numeric_chars.

(** How section 4.5 relates [dtos] to [get_num_digits]: a rendered value
    is its minus sign, its digits before the decimal point and, at a
    positive precision, the decimal point and [precision] decimals. *)
Definition dtos_length_law `{Utilities} : Prop :=
  forall v precision, 0 <= precision ->
    Z.of_nat (String.length (dtos v precision)) =
    get_num_digits v precision
    + (if (v <? 0)%float then 1 else 0)
    + (if precision =? 0 then 0 else 1 + precision).

(** The feed rate [f] of [get_gcode] and [get_gcode_length]: 0 when the end
    point moves at the start point's feed rate. *)
Definition feed_rate (start_point end_point : printer_point.t) : double :=
  if (printer_point.f start_point =? printer_point.f end_point)%float
  then 0%float
  else printer_point.f end_point.

(** A feed rate that passes [greater_than_or_equal(f, 1)] is not negative. *)
Definition emitted_feed_rate_is_not_negative `{Utilities}
  (start_point end_point : printer_point.t) : Prop :=
  greater_than_or_equal (feed_rate start_point end_point) 1%float = true ->
  (feed_rate start_point end_point <? 0)%float = false.

(** ** Construction *)

Definition set_allow_3d_shapes (b : segmented_shape) (v : bool) : segmented_shape :=
  mk_shape (points_ b) (original_shape_length_ b) (e_relative_ b) (is_shape_ b)
    v (min_segments_ b) (mm_per_segment_ b)
    (resolution_mm_ b) (path_tolerance_percent_ b) (max_gcode_length_ b)
    (xyz_precision_ b) (e_precision_ b) (xyz_tolerance_ b)
    (num_gcode_length_exceptions_ b) (num_firmware_compensations_ b).

(** What the constructors use and the two translation units do not define:
    the default constants, the two constructors of the base class
    [segmented_shape] (six and nine arguments) and the default-constructed
    curve models. *)
Class Construction : Type := {
  DEFAULT_MIN_SEGMENTS : Z;
  DEFAULT_MAX_SEGMENTS : Z;
  DEFAULT_MM_PER_SEGMENT : double;
  DEFAULT_RESOLUTION_MM : double;
  LENGTH_PERCENT_TOLERANCE_DEFAULT : double;
  DEFAULT_MAX_GCODE_LENGTH : Z;
  DEFAULT_MAX_RADIUS_MM : double;
  DEFAULT_ALLOW_3D_SPLINES : bool;
  segmented_shape_defaults :
    Z -> Z -> double -> double -> double -> Z -> segmented_shape;
  segmented_shape_configured :
    bool -> Z -> Z -> double -> double -> double -> Z -> Z -> Z -> segmented_shape;
  arc_default : arc.t;
  spline_default : spline.t
}.

Module Constructors.
Section WithDefaults.
Context {D : Construction}.

(** [segmented_arc::segmented_arc()] *)
Definition segmented_arc_default : segmented_arc :=
  let base :=
    segmented_shape_defaults DEFAULT_MIN_SEGMENTS DEFAULT_MAX_SEGMENTS
      DEFAULT_MM_PER_SEGMENT DEFAULT_RESOLUTION_MM
      LENGTH_PERCENT_TOLERANCE_DEFAULT DEFAULT_MAX_GCODE_LENGTH in
  let max_radius_mm_ := DEFAULT_MAX_RADIUS_MM in
  mk_segmented_arc base arc_default max_radius_mm_.

(** [segmented_arc::segmented_arc(allow_3d_shapes, min_segments,
    max_segments, mm_per_segment, resolution_mm, path_tolerance_percent,
    max_gcode_length, default_xyz_precision, default_e_precision,
    max_radius_mm)] *)
Definition segmented_arc_configured
  (allow_3d_shapes : bool) (min_segments max_segments : Z)
  (mm_per_segment resolution_mm path_tolerance_percent : double)
  (max_gcode_length default_xyz_precision default_e_precision : Z)
  (max_radius_mm : double) : segmented_arc :=
  let base :=
    segmented_shape_configured allow_3d_shapes min_segments max_segments
      mm_per_segment resolution_mm path_tolerance_percent max_gcode_length
      default_xyz_precision default_e_precision in
  let max_radius_mm_ := max_radius_mm in
  let max_radius_mm_ :=
    if (DEFAULT_MAX_RADIUS_MM <? max_radius_mm)%float
    then DEFAULT_MAX_RADIUS_MM
    else max_radius_mm_ in
  mk_segmented_arc base arc_default max_radius_mm_.

(** [segmented_arc::get_max_radius] *)
Definition get_max_radius (s : segmented_arc) : double := max_radius_mm_ s.

(** [segmented_spline::segmented_spline()] *)
Definition segmented_spline_default : segmented_spline :=
  let base :=
    segmented_shape_defaults DEFAULT_MIN_SEGMENTS DEFAULT_MAX_SEGMENTS
      DEFAULT_MM_PER_SEGMENT DEFAULT_RESOLUTION_MM
      LENGTH_PERCENT_TOLERANCE_DEFAULT DEFAULT_MAX_GCODE_LENGTH in
  let base := set_allow_3d_shapes base DEFAULT_ALLOW_3D_SPLINES in
  mk_segmented_spline base spline_default.

(** [segmented_spline::segmented_spline(allow_3d_shapes, min_segments,
    max_segments, mm_per_segment, resolution_mm, path_tolerance_percent,
    max_gcode_length, default_xyz_precision, default_e_precision)] *)
Definition segmented_spline_configured
  (allow_3d_shapes : bool) (min_segments max_segments : Z)
  (mm_per_segment resolution_mm path_tolerance_percent : double)
  (max_gcode_length default_xyz_precision default_e_precision : Z)
  : segmented_spline :=
  let base :=
    segmented_shape_configured allow_3d_shapes min_segments max_segments
      mm_per_segment resolution_mm path_tolerance_percent max_gcode_length
      default_xyz_precision default_e_precision in
  mk_segmented_spline base spline_default.

End WithDefaults.
End Constructors.

(** ** Vocabulary for sequences of calls *)

(** The running sum of the buffered points' distances, added in buffer
    order onto [start]. *)
Definition sum_of_distances (start : double) (pts : array_list.t) : double :=
  fold_left (fun acc p => (acc + printer_point.distance p)%float) pts start.

(** The members [try_add_point_internal_] has no statement for: the
    configuration and the relative extrusion. *)
Definition same_configuration (b b' : segmented_shape) : Prop :=
  e_relative_ b' = e_relative_ b
  /\ allow_3d_shapes_ b' = allow_3d_shapes_ b
  /\ min_segments_ b' = min_segments_ b
  /\ mm_per_segment_ b' = mm_per_segment_ b
  /\ resolution_mm_ b' = resolution_mm_ b
  /\ path_tolerance_percent_ b' = path_tolerance_percent_ b
  /\ max_gcode_length_ b' = max_gcode_length_ b
  /\ xyz_precision_ b' = xyz_precision_ b
  /\ e_precision_ b' = e_precision_ b
  /\ xyz_tolerance_ b' = xyz_tolerance_ b.

(** A solver that breaks the contract: it fails and leaves a unit circle
    in the target. *)
Definition scribbling_solver : ArcSolver := {|
  try_create_arc := fun pts target _ _ _ _ _ _ =>
    (false, arc.mk (arc.start_point target) (arc.end_point target)
              (arc.angle_radians target) 1 (arc.i target) (arc.j target)
              (arc.length target))
|}.

(** Stand-ins for the default constants and the base-class constructors:
    an empty buffer, no shape, counters at 0, three decimals for positions
    and five for extrusion. *)
Definition reference_construction : Construction := {|
  DEFAULT_MIN_SEGMENTS := 3;
  DEFAULT_MAX_SEGMENTS := 50;
  DEFAULT_MM_PER_SEGMENT := 0;
  DEFAULT_RESOLUTION_MM := 0.0625;
  LENGTH_PERCENT_TOLERANCE_DEFAULT := 0.0625;
  DEFAULT_MAX_GCODE_LENGTH := 0;
  DEFAULT_MAX_RADIUS_MM := 9999;
  DEFAULT_ALLOW_3D_SPLINES := false;
  segmented_shape_defaults := fun min_segments _ mm_per_segment resolution_mm
                                  path_tolerance_percent max_gcode_length =>
    mk_shape [] 0 0 false false min_segments mm_per_segment resolution_mm
      path_tolerance_percent max_gcode_length 3 5 0x1p-10 0 0;
  segmented_shape_configured := fun allow_3d_shapes min_segments _ mm_per_segment
                                    resolution_mm path_tolerance_percent
                                    max_gcode_length xyz_precision e_precision =>
    mk_shape [] 0 0 false allow_3d_shapes min_segments mm_per_segment
      resolution_mm path_tolerance_percent max_gcode_length xyz_precision
      e_precision 0x1p-10 0 0;
  arc_default :=
    arc.mk (printer_point.mk 0 0 0 0 false 0 0) (printer_point.mk 0 0 0 0 false 0 0)
      0 0 0 0 0;
  spline_default :=
    spline.mk (printer_point.mk 0 0 0 0 false 0 0) (printer_point.mk 0 0 0 0 false 0 0) 0
|}.

(** ** Concrete accumulators *)

Module Examples.

Definition point (x y z distance f : double) : printer_point.t :=
  printer_point.mk x y z 0 false distance f.

Definition origin : printer_point.t := point 0 0 0 0 0.

(** Three points of the circle of radius 1.25 around the origin, half a
    turn counter-clockwise, with their distances from the previous point;
    the last one moves at a new feed rate. *)
Definition q1 : printer_point.t := point 0.75 1 0 0 1200.
Definition q2 : printer_point.t := point (-0.75) 1 0 1.5 1200.
Definition q3 : printer_point.t := point (-0.75) (-1) 0 2 1800.

(** The same end point, half a millimetre higher, extruder in relative
    mode. *)
Definition q3_up : printer_point.t :=
  printer_point.mk (-0.75) (-1) 0.5 0 true 2 1800.

(** An empty shape: resolution and path tolerance 1/16, three decimals
    for positions (tolerance 2^-10), five for extrusion. *)
Definition shape
  (allow_3d_shapes : bool) (min_segments : Z) (mm_per_segment : double)
  (max_gcode_length : Z) : segmented_shape :=
  mk_shape [] 0 0 false allow_3d_shapes min_segments mm_per_segment
    0.0625 0.0625 max_gcode_length 3 5 0x1p-10 0 0.

Definition buffered (b : segmented_shape) (pts : array_list.t) (len : double)
  : segmented_shape :=
  set_original_shape_length (set_points b pts) len.

Definition no_arc : arc.t := arc.mk origin origin 0 0 0 0 0.
Definition no_spline : spline.t := spline.mk origin origin 0.

(** Arc accumulators: empty, and holding [q1; q2], with and without
    millimetres per segment, and with a cap of 20 characters. *)
Definition empty_arc : segmented_arc :=
  mk_segmented_arc (shape false 3 1 0) no_arc 9999.

Definition two_points_arc : segmented_arc :=
  mk_segmented_arc (buffered (shape false 3 1 0) [q1; q2] 1.5) no_arc 9999.

Definition two_points_arc_no_mm : segmented_arc :=
  mk_segmented_arc (buffered (shape false 3 0 0) [q1; q2] 1.5) no_arc 9999.

Definition two_points_arc_capped : segmented_arc :=
  mk_segmented_arc (buffered (shape false 3 1 20) [q1; q2] 1.5) no_arc 9999.

(** Spline accumulators: empty, holding [q1; q2] with 3-axis shapes
    disabled, and the same with a cap of 20 characters. *)
Definition empty_spline : segmented_spline :=
  mk_segmented_spline (shape false 3 1 0) no_spline.

Definition two_points_spline : segmented_spline :=
  mk_segmented_spline (buffered (shape false 3 1 0) [q1; q2] 1.5) no_spline.

Definition two_points_spline_capped : segmented_spline :=
  mk_segmented_spline (buffered (shape false 3 1 20) [q1; q2] 1.5) no_spline.

(** The accumulators the code reaches from [q1; q2] when [q3] is
    accepted. *)
Definition accepted_arc : segmented_arc :=
  snd (Arc.try_add_point_internal_ (U := Reference.utilities)
         (C := Reference.conversion) (Solver := Reference.arc_solver)
         two_points_arc_no_mm q3).

Definition accepted_spline : segmented_spline :=
  snd (Spline.try_add_point_internal_ (U := Reference.utilities)
         (Solver := Reference.spline_solver) two_points_spline q3).

(** A spline fitted from [q1] to [q3_up] with an extrusion of 1/8,
    3-axis shapes not allowed. *)
Definition rising_spline : segmented_spline :=
  mk_segmented_spline
    (mk_shape [q1; q2; q3_up] 3.5 0.125 true false 3 1
       0.0625 0.0625 0 3 5 0x1p-10 0 0)
    (spline.mk q1 q3_up 3.5).

End Examples.

(** More accumulators and candidates. *)
Module MoreExamples.
Import Examples.

(** A third point on the line through [q1] and [q2]. *)
Definition q_line : printer_point.t := point (-2.25) 1 0 1.5 1200.

(** [q3] reached without any distance. *)
Definition q3_still : printer_point.t := point (-0.75) (-1) 0 0 1800.

(** [q1; q2] with a cap of 50 characters and no firmware compensation. *)
Definition two_points_arc_cap50 : segmented_arc :=
  mk_segmented_arc (buffered (shape false 3 0 50) [q1; q2] 1.5) no_arc 9999.

Definition two_points_spline_cap50 : segmented_spline :=
  mk_segmented_spline (buffered (shape false 3 0 50) [q1; q2] 1.5) no_spline.

(** [q1; q2] with an original length of 0. *)
Definition two_points_arc_still : segmented_arc :=
  mk_segmented_arc (buffered (shape false 3 0 0) [q1; q2] 0) no_arc 9999.

Definition two_points_spline_still : segmented_spline :=
  mk_segmented_spline (buffered (shape false 3 0 0) [q1; q2] 0) no_spline.

(** The accepted arc of [Examples], formatted without decimals. *)
Definition coarse_arc : segmented_arc :=
  mk_segmented_arc
    (mk_shape [q1; q2; q3] 3.5 0 true false 3 0 0.0625 0.0625 0 0 5 0x1p-10 0 0)
    (current_arc_ accepted_arc) 9999.

End MoreExamples.

(** * Properties *)

#[local] Arguments Arc.get_gcode_length : simpl never.
#[local] Arguments Spline.get_gcode_length : simpl never.

(** Case analysis on every test of a function body, innermost first. *)
Ltac split_ifs :=
  repeat (match goal with
          | |- context [if ?c then _ else _] =>
              lazymatch c with
              | context [if _ then _ else _] => fail
              | _ => destruct c eqn:?
              end
          | H : context [if ?c then _ else _] |- _ =>
              lazymatch c with
              | context [if _ then _ else _] => fail
              | _ => destruct c eqn:?
              end
          end; cbn in *; try discriminate).

Ltac unfold_shape :=
  unfold get_min_segments, get_xyz_tolerance, is_shape,
    array_list.push_back, array_list.pop_back, bool_to_int in *.

Ltac unfold_arc :=
  unfold Arc.try_add_point_internal_, Arc.remove_point, Arc.too_few_points,
    Arc.exceeds_max_gcode_length, Arc.firmware_guard, Arc.too_few_segments,
    Arc.degenerate, Arc.segments_by_count, Arc.segments_by_length,
    Arc.circumference, Arc.fitted, Arc.solve, Arc.with_candidate,
    set_current_arc, set_arc_base in *;
  unfold_shape.

Ltac unfold_spline :=
  unfold Spline.try_add_point_internal_, Spline.remove_point,
    Spline.too_few_points, Spline.exceeds_max_gcode_length, Spline.too_short,
    Spline.fitted, Spline.solve, Spline.with_candidate,
    set_current_spline, set_spline_base in *;
  unfold_shape.

Ltac finish_step :=
  rewrite ?removelast_last, ?orb_true_r, ?orb_false_r;
  try reflexivity; try lia.

Ltac arc_step := unfold_arc; cbn in *; split_ifs; finish_step.

Ltac spline_step := unfold_spline; cbn in *; split_ifs; finish_step.

(** ** One call of [segmented_arc::try_add_point_internal_] *)

Section ArcStep.
Context {U : Utilities} {C : Conversion} {Solver : ArcSolver}.

(** The result: enough points, the solver succeeds, no filter rejects. *)
Lemma arc_step_result (s : segmented_arc) (p : printer_point.t) :
  fst (Arc.try_add_point_internal_ s p) =
  negb (Arc.too_few_points s) && fst (Arc.solve s p)
  && negb (Arc.exceeds_max_gcode_length (Arc.fitted s p))
  && negb (Arc.firmware_guard (Arc.fitted s p)
           && Arc.too_few_segments (Arc.fitted s p))
  && negb (Arc.degenerate (Arc.fitted s p)).
Proof. arc_step. Qed.

Lemma arc_step_too_few_points (s : segmented_arc) (p : printer_point.t) :
  Arc.too_few_points s = true ->
  Arc.try_add_point_internal_ s p = (false, s).
Proof.
  unfold Arc.too_few_points, Arc.try_add_point_internal_.
  intros H. rewrite H. reflexivity.
Qed.

Lemma arc_step_length_exceptions (s : segmented_arc) (p : printer_point.t) :
  num_gcode_length_exceptions_ (arc_base (snd (Arc.try_add_point_internal_ s p))) =
  num_gcode_length_exceptions_ (arc_base s)
  + bool_to_int (negb (Arc.too_few_points s) && fst (Arc.solve s p)
                 && Arc.exceeds_max_gcode_length (Arc.fitted s p)).
Proof. arc_step. Qed.

Lemma arc_step_firmware_compensations (s : segmented_arc) (p : printer_point.t) :
  num_firmware_compensations_ (arc_base (snd (Arc.try_add_point_internal_ s p))) =
  num_firmware_compensations_ (arc_base s)
  + bool_to_int (negb (Arc.too_few_points s) && fst (Arc.solve s p)
                 && Arc.firmware_guard (Arc.fitted s p)
                 && Arc.too_few_segments (Arc.fitted s p)).
Proof. arc_step. Qed.

Lemma arc_step_points (s : segmented_arc) (p : printer_point.t) :
  points_ (arc_base (snd (Arc.try_add_point_internal_ s p))) =
  if fst (Arc.try_add_point_internal_ s p)
  then array_list.push_back (points_ (arc_base s)) p
  else points_ (arc_base s).
Proof. arc_step. Qed.

Lemma arc_step_original_shape_length (s : segmented_arc) (p : printer_point.t) :
  original_shape_length_ (arc_base (snd (Arc.try_add_point_internal_ s p))) =
  if fst (Arc.try_add_point_internal_ s p)
  then (original_shape_length_ (arc_base s) + printer_point.distance p)%float
  else original_shape_length_ (arc_base s).
Proof. arc_step. Qed.

(** The curve model: the solver's on acceptance, the snapshot when a
    filter aborts, and whatever the solver left when it fails. *)
Lemma arc_step_current_arc (s : segmented_arc) (p : printer_point.t) :
  current_arc_ (snd (Arc.try_add_point_internal_ s p)) =
  if Arc.too_few_points s then current_arc_ s
  else if fst (Arc.solve s p)
       then if fst (Arc.try_add_point_internal_ s p)
            then snd (Arc.solve s p)
            else current_arc_ s
       else snd (Arc.solve s p).
Proof. arc_step. Qed.

Lemma arc_step_is_shape (s : segmented_arc) (p : printer_point.t) :
  is_shape (arc_base (snd (Arc.try_add_point_internal_ s p))) =
  is_shape (arc_base s) || fst (Arc.try_add_point_internal_ s p).
Proof. arc_step; destruct (is_shape_ (arc_base s)); try reflexivity; discriminate. Qed.

(** An accepted candidate passed the degeneracy test, and the accumulator
    holds the solver's arc. *)
Lemma arc_step_accepted (s : segmented_arc) (p : printer_point.t) :
  fst (Arc.try_add_point_internal_ s p) = true ->
  current_arc_ (snd (Arc.try_add_point_internal_ s p)) = snd (Arc.solve s p)
  /\ Arc.degenerate (Arc.fitted s p) = false.
Proof.
  intros Hacc. rewrite arc_step_current_arc, Hacc.
  rewrite arc_step_result in Hacc.
  repeat (apply andb_prop in Hacc; destruct Hacc as [Hacc ?]).
  apply negb_true_iff in Hacc. rewrite Hacc.
  match goal with H : fst (Arc.solve s p) = true |- _ => rewrite H end.
  split; [reflexivity|]. apply negb_true_iff. assumption.
Qed.

(** The configuration is never written. *)
Lemma arc_step_configuration (s : segmented_arc) (p : printer_point.t) :
  let s' := snd (Arc.try_add_point_internal_ s p) in
  min_segments_ (arc_base s') = min_segments_ (arc_base s)
  /\ mm_per_segment_ (arc_base s') = mm_per_segment_ (arc_base s)
  /\ max_gcode_length_ (arc_base s') = max_gcode_length_ (arc_base s)
  /\ xyz_tolerance_ (arc_base s') = xyz_tolerance_ (arc_base s).
Proof. arc_step; repeat split; reflexivity. Qed.

End ArcStep.

(** ** One call of [segmented_spline::try_add_point_internal_] *)

Section SplineStep.
Context {U : Utilities} {Solver : SplineSolver}.

Lemma spline_step_result (s : segmented_spline) (p : printer_point.t) :
  fst (Spline.try_add_point_internal_ s p) =
  negb (Spline.too_few_points s) && fst (Spline.solve s p)
  && negb (Spline.exceeds_max_gcode_length (Spline.fitted s p))
  && negb (Spline.too_short (Spline.fitted s p)).
Proof. spline_step. Qed.

Lemma spline_step_too_few_points (s : segmented_spline) (p : printer_point.t) :
  Spline.too_few_points s = true ->
  Spline.try_add_point_internal_ s p = (false, s).
Proof.
  unfold Spline.too_few_points, Spline.try_add_point_internal_.
  intros H. rewrite H. reflexivity.
Qed.

Lemma spline_step_length_exceptions (s : segmented_spline) (p : printer_point.t) :
  num_gcode_length_exceptions_ (spline_base (snd (Spline.try_add_point_internal_ s p))) =
  num_gcode_length_exceptions_ (spline_base s)
  + bool_to_int (negb (Spline.too_few_points s) && fst (Spline.solve s p)
                 && Spline.exceeds_max_gcode_length (Spline.fitted s p)).
Proof. spline_step. Qed.

Lemma spline_step_firmware_compensations (s : segmented_spline) (p : printer_point.t) :
  num_firmware_compensations_ (spline_base (snd (Spline.try_add_point_internal_ s p))) =
  num_firmware_compensations_ (spline_base s).
Proof. spline_step. Qed.

Lemma spline_step_points (s : segmented_spline) (p : printer_point.t) :
  points_ (spline_base (snd (Spline.try_add_point_internal_ s p))) =
  if fst (Spline.try_add_point_internal_ s p)
  then array_list.push_back (points_ (spline_base s)) p
  else points_ (spline_base s).
Proof. spline_step. Qed.

Lemma spline_step_original_shape_length (s : segmented_spline) (p : printer_point.t) :
  original_shape_length_ (spline_base (snd (Spline.try_add_point_internal_ s p))) =
  if fst (Spline.try_add_point_internal_ s p)
  then (original_shape_length_ (spline_base s) + printer_point.distance p)%float
  else original_shape_length_ (spline_base s).
Proof. spline_step. Qed.

Lemma spline_step_current_spline (s : segmented_spline) (p : printer_point.t) :
  current_spline_ (snd (Spline.try_add_point_internal_ s p)) =
  if Spline.too_few_points s then current_spline_ s
  else if fst (Spline.solve s p)
       then if fst (Spline.try_add_point_internal_ s p)
            then snd (Spline.solve s p)
            else current_spline_ s
       else snd (Spline.solve s p).
Proof. spline_step. Qed.

Lemma spline_step_is_shape (s : segmented_spline) (p : printer_point.t) :
  is_shape (spline_base (snd (Spline.try_add_point_internal_ s p))) =
  is_shape (spline_base s) || fst (Spline.try_add_point_internal_ s p).
Proof. spline_step; destruct (is_shape_ (spline_base s)); try reflexivity; discriminate. Qed.

Lemma spline_step_configuration (s : segmented_spline) (p : printer_point.t) :
  let s' := snd (Spline.try_add_point_internal_ s p) in
  min_segments_ (spline_base s') = min_segments_ (spline_base s)
  /\ mm_per_segment_ (spline_base s') = mm_per_segment_ (spline_base s)
  /\ max_gcode_length_ (spline_base s') = max_gcode_length_ (spline_base s)
  /\ xyz_tolerance_ (spline_base s') = xyz_tolerance_ (spline_base s).
Proof. spline_step; repeat split; reflexivity. Qed.

End SplineStep.

(** ** Sequences of calls *)

Section ArcRuns.
Context {U : Utilities} {C : Conversion} {Solver : ArcSolver}.

Lemma arc_add_points_app (s : segmented_arc) (ps qs : list printer_point.t) :
  Arc.add_points s (ps ++ qs) = Arc.add_points (Arc.add_points s ps) qs.
Proof.
  revert s. induction ps as [|p ps IH]; intros s; cbn; [reflexivity|].
  apply IH.
Qed.

Lemma arc_is_shape_preserved (s : segmented_arc) (ps : list printer_point.t) :
  is_shape (arc_base s) = true ->
  is_shape (arc_base (Arc.add_points s ps)) = true.
Proof.
  revert s. induction ps as [|p ps IH]; intros s Hs; cbn; [exact Hs|].
  apply IH. rewrite arc_step_is_shape, Hs. reflexivity.
Qed.

Lemma arc_counters_never_decrease (s : segmented_arc) (ps : list printer_point.t) :
  num_gcode_length_exceptions_ (arc_base s)
  <= num_gcode_length_exceptions_ (arc_base (Arc.add_points s ps))
  /\ num_firmware_compensations_ (arc_base s)
     <= num_firmware_compensations_ (arc_base (Arc.add_points s ps)).
Proof.
  revert s. induction ps as [|p ps IH]; intros s; cbn; [lia|].
  specialize (IH (snd (Arc.try_add_point_internal_ s p))).
  rewrite arc_step_length_exceptions, arc_step_firmware_compensations in IH.
  unfold bool_to_int in IH.
  split_ifs; lia.
Qed.

(** The firmware guard reads the configuration only. *)
Lemma arc_firmware_guard_step (s : segmented_arc) (p : printer_point.t) :
  Arc.firmware_guard (snd (Arc.try_add_point_internal_ s p)) = Arc.firmware_guard s.
Proof.
  destruct (arc_step_configuration s p) as (Hmin & Hmm & _).
  unfold Arc.firmware_guard. rewrite Hmin, Hmm. reflexivity.
Qed.

Lemma arc_firmware_guard_fitted (s : segmented_arc) (p : printer_point.t) :
  Arc.firmware_guard (Arc.fitted s p) = Arc.firmware_guard s.
Proof. reflexivity. Qed.

End ArcRuns.

Section SplineRuns.
Context {U : Utilities} {Solver : SplineSolver}.

Lemma spline_add_points_app (s : segmented_spline) (ps qs : list printer_point.t) :
  Spline.add_points s (ps ++ qs) = Spline.add_points (Spline.add_points s ps) qs.
Proof.
  revert s. induction ps as [|p ps IH]; intros s; cbn; [reflexivity|].
  apply IH.
Qed.

Lemma spline_is_shape_preserved (s : segmented_spline) (ps : list printer_point.t) :
  is_shape (spline_base s) = true ->
  is_shape (spline_base (Spline.add_points s ps)) = true.
Proof.
  revert s. induction ps as [|p ps IH]; intros s Hs; cbn; [exact Hs|].
  apply IH. rewrite spline_step_is_shape, Hs. reflexivity.
Qed.

Lemma spline_counters_never_decrease (s : segmented_spline) (ps : list printer_point.t) :
  num_gcode_length_exceptions_ (spline_base s)
  <= num_gcode_length_exceptions_ (spline_base (Spline.add_points s ps))
  /\ num_firmware_compensations_ (spline_base (Spline.add_points s ps))
     = num_firmware_compensations_ (spline_base s).
Proof.
  revert s. induction ps as [|p ps IH]; intros s; cbn; [split; [lia|reflexivity]|].
  specialize (IH (snd (Spline.try_add_point_internal_ s p))).
  rewrite spline_step_length_exceptions, spline_step_firmware_compensations in IH.
  unfold bool_to_int in IH.
  split_ifs; split; try lia; apply IH.
Qed.

End SplineRuns.

(** ** The reference solvers honour the solver contract *)

Lemma circle_through_three_contract :
  @arc_solver_writes_on_success_only Reference.arc_solver.
Proof.
  intros pts a len maxr res pct tol allow3d. cbn.
  unfold Reference.circle_through_three.
  destruct pts as [|p0 [|p1 [|p2 rest]]]; try reflexivity.
  cbv zeta.
  destruct (Reference.ref_is_zero _ _); [reflexivity|].
  destruct (PrimFloat.ltb _ _); [reflexivity|].
  cbn [fst]. discriminate.
Qed.

Lemma chord_spline_contract :
  @spline_solver_writes_on_success_only Reference.spline_solver.
Proof.
  intros pts sp len res pct minseg mmseg tol. cbn.
  unfold Reference.chord_spline.
  destruct pts as [|p0 [|p1 rest]]; try reflexivity.
  cbn. discriminate.
Qed.

(** * The fit controller *)

Section Controller.
Context {U : Utilities} {C : Conversion} {SA : ArcSolver} {SS : SplineSolver}.

(** C2 (rollback on rejection).  Provided the solvers write the candidate
    curve model on success only (their contract in sections 4.2 and 4.3),
    a call of [try_add_point_internal_] that returns false leaves the
    point buffer, the cumulative original shape length and the curve
    model equal to their values before the call, for the arc and for the
    spline accumulator, on every rejection path: too few points, solver
    failure and every post-fit filter. *)
Theorem rejection_restores_state
  (Harc : arc_solver_writes_on_success_only)
  (Hspline : spline_solver_writes_on_success_only)
  (sa : segmented_arc) (ss : segmented_spline) (p : printer_point.t) :
  (fst (Arc.try_add_point_internal_ sa p) = false ->
   let sa' := snd (Arc.try_add_point_internal_ sa p) in
   points_ (arc_base sa') = points_ (arc_base sa)
   /\ original_shape_length_ (arc_base sa') = original_shape_length_ (arc_base sa)
   /\ current_arc_ sa' = current_arc_ sa)
  /\ (fst (Spline.try_add_point_internal_ ss p) = false ->
      let ss' := snd (Spline.try_add_point_internal_ ss p) in
      points_ (spline_base ss') = points_ (spline_base ss)
      /\ original_shape_length_ (spline_base ss') = original_shape_length_ (spline_base ss)
      /\ current_spline_ ss' = current_spline_ ss).
Proof.
  split; intros Hrej; cbv zeta.
  - rewrite arc_step_points, arc_step_original_shape_length,
      arc_step_current_arc, Hrej.
    repeat split.
    destruct (Arc.too_few_points sa); [reflexivity|].
    destruct (fst (Arc.solve sa p)) eqn:Hsolve; [reflexivity|].
    unfold Arc.solve in *. apply Harc. exact Hsolve.
  - rewrite spline_step_points, spline_step_original_shape_length,
      spline_step_current_spline, Hrej.
    repeat split.
    destruct (Spline.too_few_points ss); [reflexivity|].
    destruct (fst (Spline.solve ss p)) eqn:Hsolve; [reflexivity|].
    unfold Spline.solve in *. apply Hspline. exact Hsolve.
Qed.

(** When the solver fails, the curve model the accumulator ends with is
    the one the solver left: the caller restores its snapshot after a
    filter rejection only. *)
Lemma arc_solver_failure_keeps_solver_output (s : segmented_arc) (p : printer_point.t) :
  Arc.too_few_points s = false ->
  fst (Arc.solve s p) = false ->
  current_arc_ (snd (Arc.try_add_point_internal_ s p)) = snd (Arc.solve s p).
Proof.
  intros Hfew Hsolve. rewrite arc_step_current_arc, Hfew, Hsolve. reflexivity.
Qed.

(** C4 (degenerate arcs are never accepted).  Whenever the arc
    accumulator accepts a point, the arc it then holds does not have both
    centre offsets I and J within the numeric tolerance of zero, and its
    length is not below the numeric tolerance. *)
Theorem accepted_arc_is_not_degenerate (s : segmented_arc) (p : printer_point.t) :
  fst (Arc.try_add_point_internal_ s p) = true ->
  let a := current_arc_ (snd (Arc.try_add_point_internal_ s p)) in
  let tolerance := get_xyz_tolerance (arc_base s) in
  is_zero (arc.get_i a) tolerance && is_zero (arc.get_j a) tolerance = false
  /\ (arc.length a <? tolerance)%float = false.
Proof.
  intros Hacc. cbv zeta.
  destruct (arc_step_accepted s p Hacc) as [Hcur Hdeg].
  rewrite Hcur. unfold Arc.degenerate in Hdeg.
  apply orb_false_iff in Hdeg. exact Hdeg.
Qed.

(** The same as an invariant of the accumulator: from a start where no
    shape is held, whenever [is_shape] holds after a sequence of calls the
    current arc is not degenerate. *)
Lemma arc_shape_is_not_degenerate
  (Harc : arc_solver_writes_on_success_only)
  (s : segmented_arc) (ps : list printer_point.t) :
  (is_shape (arc_base s) = true -> Arc.degenerate s = false) ->
  is_shape (arc_base (Arc.add_points s ps)) = true ->
  Arc.degenerate (Arc.add_points s ps) = false.
Proof.
  revert s. induction ps as [|p ps IH]; intros s Hinv; cbn; [exact Hinv|].
  apply IH. intros Hshape.
  destruct (arc_step_configuration s p) as (_ & _ & _ & Htol).
  destruct (fst (Arc.try_add_point_internal_ s p)) eqn:Hres.
  - destruct (arc_step_accepted s p Hres) as [Hcur Hdeg].
    unfold Arc.degenerate, get_xyz_tolerance in *.
    rewrite Htol, Hcur. exact Hdeg.
  - rewrite arc_step_is_shape, Hres, orb_false_r in Hshape.
    specialize (Hinv Hshape).
    assert (Hcur : current_arc_ (snd (Arc.try_add_point_internal_ s p))
                   = current_arc_ s).
    { rewrite arc_step_current_arc, Hres.
      destruct (Arc.too_few_points s); [reflexivity|].
      destruct (fst (Arc.solve s p)) eqn:Hsolve; [reflexivity|].
      unfold Arc.solve in *. apply Harc. exact Hsolve. }
    unfold Arc.degenerate, get_xyz_tolerance in *.
    rewrite Htol, Hcur. exact Hinv.
Qed.

(** The fit step on a short buffer.  With fewer than [min_segments - 1]
    points buffered, [try_add_point_internal_] returns false and leaves the
    accumulator as it was: the candidate is not buffered by the fit step,
    and no solver is consulted (the result is the same for every solver). *)
Lemma too_few_points_returns_false
  (sa : segmented_arc) (ss : segmented_spline) (p : printer_point.t) :
  (array_list.count (points_ (arc_base sa)) < get_min_segments (arc_base sa) - 1 ->
   Arc.try_add_point_internal_ sa p = (false, sa))
  /\ (array_list.count (points_ (spline_base ss)) < get_min_segments (spline_base ss) - 1 ->
      Spline.try_add_point_internal_ ss p = (false, ss)).
Proof.
  split; intros Hfew.
  - apply arc_step_too_few_points. unfold Arc.too_few_points.
    apply Z.ltb_lt. exact Hfew.
  - apply spline_step_too_few_points. unfold Spline.too_few_points.
    apply Z.ltb_lt. exact Hfew.
Qed.

(** C8 (monotonic acceptance).  Once [is_shape] holds after some calls on
    an accumulator, it holds after every longer sequence of calls,
    whatever their results. *)
Theorem is_shape_never_reverts
  (sa : segmented_arc) (ss : segmented_spline)
  (before after : list printer_point.t) :
  (is_shape (arc_base (Arc.add_points sa before)) = true ->
   is_shape (arc_base (Arc.add_points sa (before ++ after))) = true)
  /\ (is_shape (spline_base (Spline.add_points ss before)) = true ->
      is_shape (spline_base (Spline.add_points ss (before ++ after))) = true).
Proof.
  split; intros Hshape.
  - rewrite arc_add_points_app. apply arc_is_shape_preserved. exact Hshape.
  - rewrite spline_add_points_app. apply spline_is_shape_preserved. exact Hshape.
Qed.

End Controller.

(** * The post-fit filters *)

Section Filters.
Context {U : Utilities} {C : Conversion} {SA : ArcSolver} {SS : SplineSolver}.

Lemma bool_to_int_one (b : bool) (n : Z) : n + bool_to_int b = n + 1 <-> b = true.
Proof. destruct b; cbn; split; intros H; try reflexivity; try discriminate; lia. Qed.

Lemma arc_exceeds_iff (s : segmented_arc) (p : printer_point.t) :
  Arc.exceeds_max_gcode_length (Arc.fitted s p) = true <->
  0 < max_gcode_length_ (arc_base s)
  /\ max_gcode_length_ (arc_base s) < Arc.get_gcode_length (Arc.fitted s p).
Proof.
  unfold Arc.exceeds_max_gcode_length.
  change (max_gcode_length_ (arc_base (Arc.fitted s p)))
    with (max_gcode_length_ (arc_base s)).
  rewrite andb_true_iff, !Z.ltb_lt. reflexivity.
Qed.

Lemma spline_exceeds_iff (s : segmented_spline) (p : printer_point.t) :
  Spline.exceeds_max_gcode_length (Spline.fitted s p) = true <->
  0 < max_gcode_length_ (spline_base s)
  /\ max_gcode_length_ (spline_base s) < Spline.get_gcode_length (Spline.fitted s p).
Proof.
  unfold Spline.exceeds_max_gcode_length.
  change (max_gcode_length_ (spline_base (Spline.fitted s p)))
    with (max_gcode_length_ (spline_base s)).
  rewrite andb_true_iff, !Z.ltb_lt. reflexivity.
Qed.

Lemma arc_too_few_segments_iff (s : segmented_arc) (p : printer_point.t) :
  Arc.too_few_segments (Arc.fitted s p) = true <->
  Arc.segments_by_count (Arc.fitted s p) < min_segments_ (arc_base s)
  /\ Arc.segments_by_length (Arc.fitted s p) < min_segments_ (arc_base s).
Proof.
  unfold Arc.too_few_segments.
  change (min_segments_ (arc_base (Arc.fitted s p)))
    with (min_segments_ (arc_base s)).
  rewrite andb_true_iff, !Z.ltb_lt. reflexivity.
Qed.

Lemma arc_firmware_guard_iff (s : segmented_arc) :
  Arc.firmware_guard s = true <->
  0 < min_segments_ (arc_base s) /\ (0 <? mm_per_segment_ (arc_base s))%float = true.
Proof.
  unfold Arc.firmware_guard. rewrite andb_true_iff, Z.ltb_lt. reflexivity.
Qed.

(** C6 (emitted-length filter).  On a fit attempt (enough points, the
    solver succeeds) of either accumulator, a positive [max_gcode_length_]
    below the predicted length of the fitted shape rejects the candidate
    and adds one to the length-exception counter; with [max_gcode_length_]
    0 no call changes that counter and the result of a call does not
    depend on the predicted length. *)
Theorem emitted_length_filter
  (sa : segmented_arc) (ss : segmented_spline) (p : printer_point.t) :
  ((Arc.too_few_points sa = false ->
    fst (Arc.solve sa p) = true ->
    0 < max_gcode_length_ (arc_base sa) ->
    max_gcode_length_ (arc_base sa) < Arc.get_gcode_length (Arc.fitted sa p) ->
    fst (Arc.try_add_point_internal_ sa p) = false
    /\ num_gcode_length_exceptions_ (arc_base (snd (Arc.try_add_point_internal_ sa p)))
       = num_gcode_length_exceptions_ (arc_base sa) + 1)
   /\ (max_gcode_length_ (arc_base sa) = 0 ->
       num_gcode_length_exceptions_ (arc_base (snd (Arc.try_add_point_internal_ sa p)))
       = num_gcode_length_exceptions_ (arc_base sa)
       /\ fst (Arc.try_add_point_internal_ sa p)
          = negb (Arc.too_few_points sa) && fst (Arc.solve sa p)
            && negb (Arc.firmware_guard (Arc.fitted sa p)
                     && Arc.too_few_segments (Arc.fitted sa p))
            && negb (Arc.degenerate (Arc.fitted sa p))))
  /\ ((Spline.too_few_points ss = false ->
       fst (Spline.solve ss p) = true ->
       0 < max_gcode_length_ (spline_base ss) ->
       max_gcode_length_ (spline_base ss) < Spline.get_gcode_length (Spline.fitted ss p) ->
       fst (Spline.try_add_point_internal_ ss p) = false
       /\ num_gcode_length_exceptions_ (spline_base (snd (Spline.try_add_point_internal_ ss p)))
          = num_gcode_length_exceptions_ (spline_base ss) + 1)
      /\ (max_gcode_length_ (spline_base ss) = 0 ->
          num_gcode_length_exceptions_ (spline_base (snd (Spline.try_add_point_internal_ ss p)))
          = num_gcode_length_exceptions_ (spline_base ss)
          /\ fst (Spline.try_add_point_internal_ ss p)
             = negb (Spline.too_few_points ss) && fst (Spline.solve ss p)
               && negb (Spline.too_short (Spline.fitted ss p)))).
Proof.
  assert (Harc0 : max_gcode_length_ (arc_base sa) = 0 ->
                  Arc.exceeds_max_gcode_length (Arc.fitted sa p) = false).
  { intros Hzero.
    destruct (Arc.exceeds_max_gcode_length (Arc.fitted sa p)) eqn:Hex;
      [|reflexivity].
    apply arc_exceeds_iff in Hex. lia. }
  assert (Hspline0 : max_gcode_length_ (spline_base ss) = 0 ->
                     Spline.exceeds_max_gcode_length (Spline.fitted ss p) = false).
  { intros Hzero.
    destruct (Spline.exceeds_max_gcode_length (Spline.fitted ss p)) eqn:Hex;
      [|reflexivity].
    apply spline_exceeds_iff in Hex. lia. }
  split; split.
  - intros Hfew Hsolve Hpos Hlong.
    assert (Hex : Arc.exceeds_max_gcode_length (Arc.fitted sa p) = true)
      by (apply arc_exceeds_iff; split; assumption).
    rewrite arc_step_result, arc_step_length_exceptions, Hfew, Hsolve, Hex.
    split; reflexivity.
  - intros Hzero.
    rewrite arc_step_result, arc_step_length_exceptions, (Harc0 Hzero).
    rewrite !andb_false_r. cbn [negb bool_to_int]. rewrite andb_true_r.
    split; [lia | reflexivity].
  - intros Hfew Hsolve Hpos Hlong.
    assert (Hex : Spline.exceeds_max_gcode_length (Spline.fitted ss p) = true)
      by (apply spline_exceeds_iff; split; assumption).
    rewrite spline_step_result, spline_step_length_exceptions, Hfew, Hsolve, Hex.
    split; reflexivity.
  - intros Hzero.
    rewrite spline_step_result, spline_step_length_exceptions, (Hspline0 Hzero).
    rewrite !andb_false_r. cbn [negb bool_to_int]. rewrite andb_true_r.
    split; [lia | reflexivity].
Qed.

(** C3, as the code has it.  On an arc fit attempt (enough points, the
    solver succeeds) with [min_segments_] and [mm_per_segment_] both
    positive, the firmware-compensation counter grows by one exactly when
    [floor(circumference / min_segments_)] and
    [floor(circumference / original_shape_length_)] are both below
    [min_segments_]; the candidate is then rejected, and otherwise the
    counter is unchanged.  No call on a spline accumulator changes the
    counter. *)
Theorem firmware_compensation_filter
  (sa : segmented_arc) (ss : segmented_spline) (p : printer_point.t) :
  (Arc.too_few_points sa = false ->
   fst (Arc.solve sa p) = true ->
   0 < min_segments_ (arc_base sa) ->
   (0 <? mm_per_segment_ (arc_base sa))%float = true ->
   let below :=
     Arc.segments_by_count (Arc.fitted sa p) < min_segments_ (arc_base sa)
     /\ Arc.segments_by_length (Arc.fitted sa p) < min_segments_ (arc_base sa) in
   let counter_after :=
     num_firmware_compensations_ (arc_base (snd (Arc.try_add_point_internal_ sa p))) in
   (counter_after = num_firmware_compensations_ (arc_base sa) + 1 <-> below)
   /\ (below -> fst (Arc.try_add_point_internal_ sa p) = false)
   /\ (~ below -> counter_after = num_firmware_compensations_ (arc_base sa)))
  /\ num_firmware_compensations_ (spline_base (snd (Spline.try_add_point_internal_ ss p)))
     = num_firmware_compensations_ (spline_base ss).
Proof.
  split; [|apply spline_step_firmware_compensations].
  intros Hfew Hsolve Hmin Hmm. cbv zeta.
  assert (Hguard : Arc.firmware_guard (Arc.fitted sa p) = true)
    by (apply arc_firmware_guard_iff; split; assumption).
  rewrite arc_step_firmware_compensations, arc_step_result.
  rewrite Hfew, Hsolve, Hguard. cbn [negb andb].
  rewrite <- arc_too_few_segments_iff.
  destruct (Arc.too_few_segments (Arc.fitted sa p)); cbn.
  - rewrite andb_false_r. cbn. repeat split; intros; try reflexivity.
    exfalso; auto.
  - repeat split; intros; try discriminate; try lia.
Qed.

(** C9 (the counters survive the rollback).  When a post-fit filter
    rejects the candidate, the call returns false with buffer, original
    length and curve model restored, while each counter has grown by one
    if its filter fired and is otherwise unchanged; no later sequence of
    calls lowers a counter again. *)
Theorem filter_rejection_keeps_counters
  (sa : segmented_arc) (ss : segmented_spline) (p : printer_point.t)
  (later : list printer_point.t) :
  (Arc.too_few_points sa = false ->
   fst (Arc.solve sa p) = true ->
   let too_long := Arc.exceeds_max_gcode_length (Arc.fitted sa p) in
   let compensated :=
     Arc.firmware_guard (Arc.fitted sa p) && Arc.too_few_segments (Arc.fitted sa p) in
   too_long = true \/ compensated = true ->
   let sa' := snd (Arc.try_add_point_internal_ sa p) in
   fst (Arc.try_add_point_internal_ sa p) = false
   /\ points_ (arc_base sa') = points_ (arc_base sa)
   /\ original_shape_length_ (arc_base sa') = original_shape_length_ (arc_base sa)
   /\ current_arc_ sa' = current_arc_ sa
   /\ num_gcode_length_exceptions_ (arc_base sa')
      = num_gcode_length_exceptions_ (arc_base sa) + bool_to_int too_long
   /\ num_firmware_compensations_ (arc_base sa')
      = num_firmware_compensations_ (arc_base sa) + bool_to_int compensated
   /\ num_gcode_length_exceptions_ (arc_base sa')
      <= num_gcode_length_exceptions_ (arc_base (Arc.add_points sa' later))
   /\ num_firmware_compensations_ (arc_base sa')
      <= num_firmware_compensations_ (arc_base (Arc.add_points sa' later)))
  /\ (Spline.too_few_points ss = false ->
      fst (Spline.solve ss p) = true ->
      Spline.exceeds_max_gcode_length (Spline.fitted ss p) = true ->
      let ss' := snd (Spline.try_add_point_internal_ ss p) in
      fst (Spline.try_add_point_internal_ ss p) = false
      /\ points_ (spline_base ss') = points_ (spline_base ss)
      /\ original_shape_length_ (spline_base ss') = original_shape_length_ (spline_base ss)
      /\ current_spline_ ss' = current_spline_ ss
      /\ num_gcode_length_exceptions_ (spline_base ss')
         = num_gcode_length_exceptions_ (spline_base ss) + 1
      /\ num_gcode_length_exceptions_ (spline_base ss')
         <= num_gcode_length_exceptions_ (spline_base (Spline.add_points ss' later))).
Proof.
  split.
  - intros Hfew Hsolve too_long compensated Hfired sa'.
    assert (Hres : fst (Arc.try_add_point_internal_ sa p) = false).
    { rewrite arc_step_result, Hfew, Hsolve. fold too_long compensated.
      destruct Hfired as [H | H]; rewrite H; cbn;
        rewrite ?andb_false_r; reflexivity. }
    pose proof (arc_step_points sa p) as Hpts.
    pose proof (arc_step_original_shape_length sa p) as Hlen.
    pose proof (arc_step_current_arc sa p) as Hcur.
    pose proof (arc_step_length_exceptions sa p) as Hexc.
    pose proof (arc_step_firmware_compensations sa p) as Hfw.
    rewrite Hres in Hpts, Hlen. rewrite Hfew, Hsolve, Hres in Hcur.
    rewrite Hfew, Hsolve in Hexc, Hfw. cbn [negb andb] in Hexc, Hfw.
    repeat split; try assumption; apply arc_counters_never_decrease.
  - intros Hfew Hsolve Hex ss'.
    assert (Hres : fst (Spline.try_add_point_internal_ ss p) = false).
    { rewrite spline_step_result, Hfew, Hsolve, Hex. reflexivity. }
    pose proof (spline_step_points ss p) as Hpts.
    pose proof (spline_step_original_shape_length ss p) as Hlen.
    pose proof (spline_step_current_spline ss p) as Hcur.
    pose proof (spline_step_length_exceptions ss p) as Hexc.
    rewrite Hres in Hpts, Hlen. rewrite Hfew, Hsolve, Hres in Hcur.
    rewrite Hfew, Hsolve, Hex in Hexc. cbn [negb andb bool_to_int] in Hexc.
    repeat split; try assumption; apply spline_counters_never_decrease.
Qed.

Lemma arc_firmware_guard_false_iff (s : segmented_arc) :
  Arc.firmware_guard s = false <->
  min_segments_ (arc_base s) <= 0 \/ (0 <? mm_per_segment_ (arc_base s))%float = false.
Proof.
  unfold Arc.firmware_guard. rewrite andb_false_iff, Z.ltb_ge. reflexivity.
Qed.

Lemma arc_guard_off_step (s : segmented_arc) (p : printer_point.t) :
  Arc.firmware_guard s = false ->
  num_firmware_compensations_ (arc_base (snd (Arc.try_add_point_internal_ s p)))
  = num_firmware_compensations_ (arc_base s).
Proof.
  intros Hoff. rewrite arc_step_firmware_compensations.
  rewrite arc_firmware_guard_fitted, Hoff, andb_false_r. cbn. lia.
Qed.

Lemma arc_guard_off_run (s : segmented_arc) (ps : list printer_point.t) :
  Arc.firmware_guard s = false ->
  num_firmware_compensations_ (arc_base (Arc.add_points s ps))
  = num_firmware_compensations_ (arc_base s).
Proof.
  revert s. induction ps as [|p ps IH]; intros s Hoff; cbn; [reflexivity|].
  rewrite IH by (rewrite arc_firmware_guard_step; exact Hoff).
  apply arc_guard_off_step. exact Hoff.
Qed.

(** C10 (the guard of the firmware-compensation filter).  When
    [min_segments_] is not positive or [mm_per_segment_] is not positive,
    no call and no sequence of calls changes the firmware-compensation
    counter, and the result of a call is decided by the other tests
    alone.  When both are positive the filter takes part in every fit
    attempt: a candidate is accepted only if the two segment counts are
    not both below [min_segments_]. *)
Theorem firmware_filter_needs_positive_configuration
  (sa : segmented_arc) (p : printer_point.t) (later : list printer_point.t) :
  (min_segments_ (arc_base sa) <= 0
   \/ (0 <? mm_per_segment_ (arc_base sa))%float = false ->
   num_firmware_compensations_ (arc_base (snd (Arc.try_add_point_internal_ sa p)))
   = num_firmware_compensations_ (arc_base sa)
   /\ num_firmware_compensations_ (arc_base (Arc.add_points sa later))
      = num_firmware_compensations_ (arc_base sa)
   /\ fst (Arc.try_add_point_internal_ sa p)
      = negb (Arc.too_few_points sa) && fst (Arc.solve sa p)
        && negb (Arc.exceeds_max_gcode_length (Arc.fitted sa p))
        && negb (Arc.degenerate (Arc.fitted sa p)))
  /\ (0 < min_segments_ (arc_base sa) ->
      (0 <? mm_per_segment_ (arc_base sa))%float = true ->
      fst (Arc.try_add_point_internal_ sa p)
      = negb (Arc.too_few_points sa) && fst (Arc.solve sa p)
        && negb (Arc.exceeds_max_gcode_length (Arc.fitted sa p))
        && negb ((Arc.segments_by_count (Arc.fitted sa p) <? min_segments_ (arc_base sa))
                 && (Arc.segments_by_length (Arc.fitted sa p) <? min_segments_ (arc_base sa)))
        && negb (Arc.degenerate (Arc.fitted sa p))).
Proof.
  split.
  - intros Hoff. apply arc_firmware_guard_false_iff in Hoff.
    repeat split.
    + apply arc_guard_off_step. exact Hoff.
    + apply arc_guard_off_run. exact Hoff.
    + rewrite arc_step_result, arc_firmware_guard_fitted, Hoff. cbn [andb negb].
      rewrite andb_true_r. reflexivity.
  - intros Hmin Hmm.
    assert (Hon : Arc.firmware_guard sa = true)
      by (apply arc_firmware_guard_iff; split; assumption).
    rewrite arc_step_result, arc_firmware_guard_fitted, Hon. cbn [andb].
    reflexivity.
Qed.

End Filters.

(** * The command emitter *)

Lemma string_length_app (a b : string) :
  String.length (a ++ b) = (String.length a + String.length b)%nat.
Proof. induction a as [|c a IH]; cbn; [reflexivity|]. rewrite IH. reflexivity. Qed.

Lemma emits_app (c : ascii) (a b : string) :
  emits c (a ++ b) <-> emits c a \/ emits c b.
Proof.
  unfold emits. induction a as [|d a IH]; cbn.
  - split; [right; assumption | intros [[] | H]; exact H].
  - rewrite IH. tauto.
Qed.

Section Emitter.
Context {U : Utilities}.

Ltac lengths :=
  repeat rewrite string_length_app; repeat rewrite Nat2Z.inj_add.

(** With [dtos] and [get_num_digits] related as section 4.5 says and
    positive precisions, the arc prediction is exact. *)
Lemma arc_gcode_length_exact
  (Hlaw : dtos_length_law) (s : segmented_arc)
  (Hf : emitted_feed_rate_is_not_negative
          (arc.start_point (current_arc_ s)) (arc.end_point (current_arc_ s))) :
  0 < get_xyz_precision (arc_base s) ->
  0 < get_e_precision (arc_base s) ->
  Arc.get_gcode_length s = Z.of_nat (String.length (Arc.get_gcode s)).
Proof.
  intros Hxyz He.
  assert (Hp : forall q, 0 < q -> (if q =? 0 then 0 else 1 + q) = 1 + q).
  { intros q Hq. destruct (Z.eqb_spec q 0); lia. }
  unfold Arc.get_gcode_length, Arc.get_gcode. cbv zeta.
  unfold emitted_feed_rate_is_not_negative, feed_rate in Hf.
  set (f := if (_ =? _)%float then 0%float else _) in *.
  destruct (greater_than_or_equal f 1) eqn:Hhas_f;
    destruct (negb (e_relative_ (arc_base s) =? 0)%float);
    destruct (allow_3d_shapes_ (arc_base s) && negb _);
    destruct (arc.angle_radians (current_arc_ s) <? 0)%float;
    cbn [andb]; lengths; rewrite !Hlaw by lia;
    rewrite ?Hf by reflexivity; rewrite ?(Hp _ Hxyz), ?(Hp _ He);
    cbn [String.length Z.eqb]; lia.
Qed.

(** Under the same assumptions the spline prediction is too large in
    every state: it counts four terms (I, J, P, Q) that [get_gcode] does
    not emit, their digits at value 0.0, and two decimal points and two
    runs of decimals for terms that do not exist. *)
Lemma spline_gcode_length_excess
  (Hlaw : dtos_length_law) (s : segmented_spline)
  (Hf : emitted_feed_rate_is_not_negative
          (spline.start_point (current_spline_ s))
          (spline.end_point (current_spline_ s))) :
  0 < get_xyz_precision (spline_base s) ->
  0 < get_e_precision (spline_base s) ->
  Spline.get_gcode_length s =
  Z.of_nat (String.length (Spline.get_gcode s))
  + 8 + 4 * get_num_digits 0.0%float (get_xyz_precision (spline_base s))
  + 2 * get_xyz_precision (spline_base s).
Proof.
  intros Hxyz He.
  assert (Hp : forall q, 0 < q -> (if q =? 0 then 0 else 1 + q) = 1 + q).
  { intros q Hq. destruct (Z.eqb_spec q 0); lia. }
  unfold Spline.get_gcode_length, Spline.get_gcode. cbv zeta.
  unfold emitted_feed_rate_is_not_negative, feed_rate in Hf.
  set (f := if (_ =? _)%float then 0%float else _) in *.
  change (0.0 <? 0)%float with false.
  destruct (greater_than_or_equal f 1) eqn:Hhas_f;
    destruct (negb (e_relative_ (spline_base s) =? 0)%float);
    destruct (negb (is_equal _ _ _));
    cbn [andb]; lengths; rewrite !Hlaw by lia;
    rewrite ?Hf by reflexivity; rewrite ?(Hp _ Hxyz), ?(Hp _ He);
    cbn [String.length Z.eqb]; lia.
Qed.

Lemma dtos_emits_no_letter (Hnum : dtos_is_numeric) (v : double) (precision : Z) :
  ~ emits "Z" (dtos v precision).
Proof.
  intros H. apply Hnum in H. cbn in H.
  repeat (destruct H as [H | H]; [discriminate H|]). exact H.
Qed.

Ltac literal H := unfold emits in H; cbn in H; intuition discriminate.

Ltac refute_emits Hnum H :=
  repeat (apply emits_app in H; destruct H as [H | H]);
  solve [ exfalso; exact (dtos_emits_no_letter Hnum _ _ H)
        | exfalso; literal H ].

(** What the two formatters do about Z.  With [dtos] rendering numbers
    only, the arc command contains a Z term exactly when 3-axis shapes are
    allowed and the end point's Z is not equal to the start point's Z
    within the numeric tolerance; the spline command contains a Z term
    exactly when the two Z values are not equal within the tolerance,
    whether or not 3-axis shapes are allowed. *)
Lemma z_term_emission
  (Hnum : dtos_is_numeric) (sa : segmented_arc) (ss : segmented_spline) :
  (emits "Z" (Arc.get_gcode sa) <->
   allow_3d_shapes_ (arc_base sa) = true
   /\ is_equal (printer_point.z (arc.start_point (current_arc_ sa)))
        (printer_point.z (arc.end_point (current_arc_ sa)))
        (get_xyz_tolerance (arc_base sa)) = false)
  /\ (emits "Z" (Spline.get_gcode ss) <->
      is_equal (printer_point.z (spline.start_point (current_spline_ ss)))
        (printer_point.z (spline.end_point (current_spline_ ss)))
        (get_xyz_tolerance (spline_base ss)) = false).
Proof.
  split.
  - unfold Arc.get_gcode. cbv zeta.
    destruct (allow_3d_shapes_ (arc_base sa));
      destruct (is_equal _ _ _);
      destruct (greater_than_or_equal _ _);
      destruct (negb (e_relative_ (arc_base sa) =? 0)%float);
      destruct (arc.angle_radians (current_arc_ sa) <? 0)%float;
      cbn [andb negb];
      (split; [intros H | intros [Ha Hz]]); try discriminate;
      try (split; reflexivity);
      try (refute_emits Hnum H);
      repeat rewrite emits_app; unfold emits; cbn; tauto.
  - unfold Spline.get_gcode. cbv zeta.
    destruct (is_equal _ _ _);
      destruct (greater_than_or_equal _ _);
      destruct (negb (e_relative_ (spline_base ss) =? 0)%float);
      cbn [negb];
      (split; [intros H | intros Hz]); try discriminate;
      try reflexivity;
      try (refute_emits Hnum H);
      repeat rewrite emits_app; unfold emits; cbn; tauto.
Qed.

End Emitter.

(** ** The reference [dtos] satisfies the assumptions on [dtos] *)

Lemma digit_is_numeric (d : Z) : In (Reference.digit d) numeric_chars.
Proof.
  unfold Reference.digit.
  destruct (nth_in_or_default (Z.to_nat d) Reference.digit_chars "0"%char) as [H | H].
  - revert H. generalize (nth (Z.to_nat d) Reference.digit_chars "0"%char).
    intros c H. cbn in H. cbn. tauto.
  - rewrite H. cbn. tauto.
Qed.

Lemma int_digits_are_numeric (fuel : nat) (n : Z) (c : ascii) :
  emits c (Reference.int_digits fuel n) -> In c numeric_chars.
Proof.
  revert n. induction fuel as [|k IH]; intros n; cbn.
  - unfold emits. cbn. intros [<- | []]. apply digit_is_numeric.
  - destruct (n <? 10).
    + unfold emits. cbn. intros [<- | []]. apply digit_is_numeric.
    + intros H. apply emits_app in H. destruct H as [H | H].
      * exact (IH _ H).
      * unfold emits in H. cbn in H. destruct H as [<- | []].
        apply digit_is_numeric.
Qed.

Lemma frac_digits_are_numeric (k : nat) (n : Z) (c : ascii) :
  emits c (Reference.frac_digits k n) -> In c numeric_chars.
Proof.
  revert n. induction k as [|k IH]; intros n; cbn.
  - intros [].
  - intros H. apply emits_app in H. destruct H as [H | H].
    + exact (IH _ H).
    + unfold emits in H. cbn in H. destruct H as [<- | []].
      apply digit_is_numeric.
Qed.

Lemma ref_dtos_is_numeric : @dtos_is_numeric Reference.utilities.
Proof.
  intros v precision c. cbn. unfold Reference.ref_dtos. cbv zeta.
  intros H. apply emits_app in H. destruct H as [H | H].
  - destruct (v <? 0)%float; unfold emits in H; cbn in H.
    + destruct H as [<- | []]. cbn. tauto.
    + destruct H.
  - apply emits_app in H. destruct H as [H | H].
    + exact (int_digits_are_numeric _ _ _ H).
    + destruct (precision =? 0).
      * destruct H.
      * change ("." ++ ?x)%string with (String "."%char x) in H.
        unfold emits in H. cbn in H. destruct H as [<- | H].
        -- cbn. tauto.
        -- exact (frac_digits_are_numeric _ _ _ H).
Qed.

Lemma int_digits_length (fuel : nat) (n : Z) :
  Z.of_nat (String.length (Reference.int_digits fuel n))
  = Reference.count_digits fuel n.
Proof.
  revert n. induction fuel as [|k IH]; intros n; cbn; [reflexivity|].
  destruct (n <? 10); [reflexivity|].
  rewrite string_length_app, Nat2Z.inj_add, IH. reflexivity.
Qed.

Lemma frac_digits_length (k : nat) (n : Z) :
  String.length (Reference.frac_digits k n) = k.
Proof.
  revert n. induction k as [|k IH]; intros n; cbn; [reflexivity|].
  rewrite string_length_app, IH. cbn. lia.
Qed.

Lemma ref_dtos_length_law : @dtos_length_law Reference.utilities.
Proof.
  intros v precision Hp.
  change (dtos v precision) with (Reference.ref_dtos v precision).
  change (get_num_digits v precision)
    with (Reference.ref_get_num_digits v precision).
  unfold Reference.ref_dtos, Reference.ref_get_num_digits. cbv zeta.
  rewrite !string_length_app, !Nat2Z.inj_add, int_digits_length.
  set (digits := Reference.count_digits _ _).
  destruct (v <? 0)%float; destruct (precision =? 0);
    cbn [String.length String.append];
    rewrite ?frac_digits_length; lia.
Qed.

(** * Concrete runs

    The accumulators of [Examples], run with the reference helpers and
    solvers. *)

Module Runs.
Import Reference Examples.

Ltac run := vm_compute; repeat split; reflexivity.

(** C1 (length prediction).  The spline accumulator that accepted [q3]
    holds a valid shape whose command is [G5 X-0.750 Y-1.000 F1800], 24
    characters, while [get_gcode_length] answers 42; with a Z and an E
    term the command has 40 characters and the prediction is 58.  The arc
    prediction on the same points is exact (40). *)
Theorem spline_gcode_length_differs_from_gcode :
  fst (Spline.try_add_point_internal_ two_points_spline q3) = true
  /\ is_shape (spline_base accepted_spline) = true
  /\ Spline.get_gcode accepted_spline = "G5 X-0.750 Y-1.000 F1800"%string
  /\ Z.of_nat (String.length (Spline.get_gcode accepted_spline)) = 24
  /\ Spline.get_gcode_length accepted_spline = 42
  /\ Spline.get_gcode rising_spline
     = "G5 X-0.750 Y-1.000 Z0.500 E0.12500 F1800"%string
  /\ Z.of_nat (String.length (Spline.get_gcode rising_spline)) = 40
  /\ Spline.get_gcode_length rising_spline = 58
  /\ Arc.get_gcode accepted_arc
     = "G3 X-0.750 Y-1.000 I-0.750 J-1.000 F1800"%string
  /\ Arc.get_gcode_length accepted_arc = 40.
Proof. run. Qed.

Lemma rejection_restores_state_witness :
  (fst (Arc.try_add_point_internal_ two_points_arc q3) = false
   /\ fst (Spline.try_add_point_internal_ two_points_spline_capped q3) = false)
  /\ (let sa' := snd (Arc.try_add_point_internal_ two_points_arc q3) in
      points_ (arc_base sa') = points_ (arc_base two_points_arc)
      /\ original_shape_length_ (arc_base sa')
         = original_shape_length_ (arc_base two_points_arc)
      /\ current_arc_ sa' = current_arc_ two_points_arc)
  /\ (let ss' := snd (Spline.try_add_point_internal_ two_points_spline_capped q3) in
      points_ (spline_base ss') = points_ (spline_base two_points_spline_capped)
      /\ original_shape_length_ (spline_base ss')
         = original_shape_length_ (spline_base two_points_spline_capped)
      /\ current_spline_ ss' = current_spline_ two_points_spline_capped).
Proof.
  assert (Ha : fst (Arc.try_add_point_internal_ two_points_arc q3) = false)
    by (vm_compute; reflexivity).
  assert (Hs : fst (Spline.try_add_point_internal_ two_points_spline_capped q3) = false)
    by (vm_compute; reflexivity).
  destruct (rejection_restores_state circle_through_three_contract
              chord_spline_contract two_points_arc two_points_spline_capped q3)
    as [Harc Hspline].
  split; [split; assumption|].
  split; [exact (Harc Ha) | exact (Hspline Hs)].
Defined.

(** C3 as stated fails: with [mm_per_segment_] 0 the solver succeeds on
    [q1; q2; q3], both segment counts are 2, below [min_segments_] 3, and
    the arc is accepted with the counter unchanged. *)
Lemma firmware_filter_is_skipped_without_mm_per_segment :
  let s := two_points_arc_no_mm in
  let below :=
    Arc.segments_by_count (Arc.fitted s q3) < min_segments_ (arc_base s)
    /\ Arc.segments_by_length (Arc.fitted s q3) < min_segments_ (arc_base s) in
  let rejected :=
    fst (Arc.try_add_point_internal_ s q3) = false
    /\ num_firmware_compensations_ (arc_base (snd (Arc.try_add_point_internal_ s q3)))
       = num_firmware_compensations_ (arc_base s) + 1 in
  Arc.too_few_points s = false
  /\ fst (Arc.solve s q3) = true
  /\ below
  /\ ~ rejected
  /\ ~ (rejected <-> below).
Proof.
  cbv zeta.
  assert (Hbelow :
    Arc.segments_by_count (Arc.fitted two_points_arc_no_mm q3) < 3
    /\ Arc.segments_by_length (Arc.fitted two_points_arc_no_mm q3) < 3)
    by (vm_compute; split; reflexivity).
  assert (Hacc : fst (Arc.try_add_point_internal_ two_points_arc_no_mm q3) = true)
    by (vm_compute; reflexivity).
  repeat split; try (vm_compute; reflexivity).
  - intros [H _]. rewrite Hacc in H. discriminate H.
  - intros [_ H]. destruct (H Hbelow) as [H' _]. rewrite Hacc in H'. discriminate H'.
Qed.

Lemma firmware_compensation_filter_witness :
  let s := two_points_arc in
  let below :=
    Arc.segments_by_count (Arc.fitted s q3) < min_segments_ (arc_base s)
    /\ Arc.segments_by_length (Arc.fitted s q3) < min_segments_ (arc_base s) in
  let counter_after :=
    num_firmware_compensations_ (arc_base (snd (Arc.try_add_point_internal_ s q3))) in
  ((counter_after = num_firmware_compensations_ (arc_base s) + 1 <-> below)
   /\ (below -> fst (Arc.try_add_point_internal_ s q3) = false)
   /\ (~ below -> counter_after = num_firmware_compensations_ (arc_base s)))
  /\ below /\ counter_after = 1.
Proof.
  cbv zeta. split.
  - apply (proj1 (firmware_compensation_filter two_points_arc two_points_spline q3)).
    + vm_compute; reflexivity.
    + vm_compute; reflexivity.
    + vm_compute; reflexivity.
    + vm_compute; reflexivity.
  - vm_compute. repeat split; reflexivity.
Defined.

Lemma accepted_arc_is_not_degenerate_witness :
  fst (Arc.try_add_point_internal_ two_points_arc_no_mm q3) = true
  /\ (let a := current_arc_ (snd (Arc.try_add_point_internal_ two_points_arc_no_mm q3)) in
      let tolerance := get_xyz_tolerance (arc_base two_points_arc_no_mm) in
      is_zero (arc.get_i a) tolerance && is_zero (arc.get_j a) tolerance = false
      /\ (arc.length a <? tolerance)%float = false).
Proof.
  assert (Hacc : fst (Arc.try_add_point_internal_ two_points_arc_no_mm q3) = true)
    by (vm_compute; reflexivity).
  split; [exact Hacc|].
  exact (accepted_arc_is_not_degenerate two_points_arc_no_mm q3 Hacc).
Defined.

(** The fit step alone does not buffer: on the empty accumulator with
    [min_segments_] 3 it returns false and the buffer stays empty. *)
Lemma too_few_points_are_not_buffered :
  array_list.count (points_ (arc_base empty_arc)) < get_min_segments (arc_base empty_arc) - 1
  /\ ~ (fst (Arc.try_add_point_internal_ empty_arc q1) = true
        /\ points_ (arc_base (snd (Arc.try_add_point_internal_ empty_arc q1)))
           = array_list.push_back (points_ (arc_base empty_arc)) q1)
  /\ array_list.count (points_ (spline_base empty_spline))
     < get_min_segments (spline_base empty_spline) - 1
  /\ ~ (fst (Spline.try_add_point_internal_ empty_spline q1) = true
        /\ points_ (spline_base (snd (Spline.try_add_point_internal_ empty_spline q1)))
           = array_list.push_back (points_ (spline_base empty_spline)) q1).
Proof.
  repeat split; try (vm_compute; reflexivity).
  - intros [H _]. vm_compute in H. discriminate H.
  - intros [H _]. vm_compute in H. discriminate H.
Qed.

Lemma too_few_points_returns_false_witness :
  Arc.try_add_point_internal_ empty_arc q1 = (false, empty_arc)
  /\ Spline.try_add_point_internal_ empty_spline q1 = (false, empty_spline).
Proof.
  destruct (too_few_points_returns_false empty_arc empty_spline q1) as [Ha Hs].
  split; [apply Ha | apply Hs]; vm_compute; reflexivity.
Defined.

Lemma emitted_length_filter_witness :
  (fst (Arc.try_add_point_internal_ two_points_arc_capped q3) = false
   /\ num_gcode_length_exceptions_
        (arc_base (snd (Arc.try_add_point_internal_ two_points_arc_capped q3)))
      = num_gcode_length_exceptions_ (arc_base two_points_arc_capped) + 1)
  /\ (fst (Spline.try_add_point_internal_ two_points_spline_capped q3) = false
      /\ num_gcode_length_exceptions_
           (spline_base (snd (Spline.try_add_point_internal_ two_points_spline_capped q3)))
         = num_gcode_length_exceptions_ (spline_base two_points_spline_capped) + 1)
  /\ num_gcode_length_exceptions_
       (arc_base (snd (Arc.try_add_point_internal_ two_points_arc q3)))
     = num_gcode_length_exceptions_ (arc_base two_points_arc)
  /\ num_gcode_length_exceptions_
       (spline_base (snd (Spline.try_add_point_internal_ two_points_spline q3)))
     = num_gcode_length_exceptions_ (spline_base two_points_spline).
Proof.
  destruct (emitted_length_filter two_points_arc_capped two_points_spline_capped q3)
    as [[Ha _] [Hs _]].
  destruct (emitted_length_filter two_points_arc two_points_spline q3)
    as [[_ Ha0] [_ Hs0]].
  split; [apply Ha; vm_compute; reflexivity|].
  split; [apply Hs; vm_compute; reflexivity|].
  split; [apply Ha0 | apply Hs0]; vm_compute; reflexivity.
Defined.

(** C7 (the Z term needs 3-axis shapes).  The arc formatter honours the
    rule; the spline formatter does not read [allow_3d_shapes_]: with
    3-axis shapes not allowed and the end point half a millimetre above the
    start point, the spline command carries a Z term, so the equivalence of
    the claim is false on this accumulator. *)
Theorem spline_emits_z_without_3d_shapes :
  allow_3d_shapes_ (spline_base rising_spline) = false
  /\ Spline.get_gcode rising_spline
     = "G5 X-0.750 Y-1.000 Z0.500 E0.12500 F1800"%string
  /\ ~ (emits "Z" (Spline.get_gcode rising_spline) <->
        allow_3d_shapes_ (spline_base rising_spline) = true
        /\ is_equal
             (printer_point.z (spline.start_point (current_spline_ rising_spline)))
             (printer_point.z (spline.end_point (current_spline_ rising_spline)))
             (get_xyz_tolerance (spline_base rising_spline)) = false).
Proof.
  split; [reflexivity|]. split; [vm_compute; reflexivity|].
  intros [H _].
  assert (Hz : emits "Z" (Spline.get_gcode rising_spline)).
  { vm_compute. do 19 right. left. reflexivity. }
  destruct (H Hz) as [H3d _]. discriminate H3d.
Qed.

Lemma z_term_emission_at_examples :
  (emits "Z" (Arc.get_gcode accepted_arc) <->
   allow_3d_shapes_ (arc_base accepted_arc) = true
   /\ is_equal (printer_point.z (arc.start_point (current_arc_ accepted_arc)))
        (printer_point.z (arc.end_point (current_arc_ accepted_arc)))
        (get_xyz_tolerance (arc_base accepted_arc)) = false)
  /\ (emits "Z" (Spline.get_gcode rising_spline) <->
      is_equal (printer_point.z (spline.start_point (current_spline_ rising_spline)))
        (printer_point.z (spline.end_point (current_spline_ rising_spline)))
        (get_xyz_tolerance (spline_base rising_spline)) = false).
Proof.
  exact (z_term_emission ref_dtos_is_numeric accepted_arc rising_spline).
Qed.

Lemma is_shape_never_reverts_witness :
  (is_shape (arc_base (Arc.add_points two_points_arc_no_mm [q3])) = true
   /\ is_shape (spline_base (Spline.add_points two_points_spline [q3])) = true)
  /\ is_shape (arc_base (Arc.add_points two_points_arc_no_mm ([q3] ++ [q1; origin]))) = true
  /\ is_shape (spline_base (Spline.add_points two_points_spline ([q3] ++ [q1; origin]))) = true.
Proof.
  assert (Ha : is_shape (arc_base (Arc.add_points two_points_arc_no_mm [q3])) = true)
    by (vm_compute; reflexivity).
  assert (Hs : is_shape (spline_base (Spline.add_points two_points_spline [q3])) = true)
    by (vm_compute; reflexivity).
  destruct (is_shape_never_reverts two_points_arc_no_mm two_points_spline
              [q3] [q1; origin]) as [Harc Hspline].
  split; [split; assumption|].
  split; [exact (Harc Ha) | exact (Hspline Hs)].
Defined.

Lemma filter_rejection_keeps_counters_witness :
  (let too_long := Arc.exceeds_max_gcode_length (Arc.fitted two_points_arc_capped q3) in
   let compensated :=
     Arc.firmware_guard (Arc.fitted two_points_arc_capped q3)
     && Arc.too_few_segments (Arc.fitted two_points_arc_capped q3) in
   let sa' := snd (Arc.try_add_point_internal_ two_points_arc_capped q3) in
   (too_long = true /\ compensated = true)
   /\ fst (Arc.try_add_point_internal_ two_points_arc_capped q3) = false
   /\ points_ (arc_base sa') = points_ (arc_base two_points_arc_capped)
   /\ original_shape_length_ (arc_base sa')
      = original_shape_length_ (arc_base two_points_arc_capped)
   /\ current_arc_ sa' = current_arc_ two_points_arc_capped
   /\ num_gcode_length_exceptions_ (arc_base sa')
      = num_gcode_length_exceptions_ (arc_base two_points_arc_capped)
        + bool_to_int too_long
   /\ num_firmware_compensations_ (arc_base sa')
      = num_firmware_compensations_ (arc_base two_points_arc_capped)
        + bool_to_int compensated
   /\ num_gcode_length_exceptions_ (arc_base sa')
      <= num_gcode_length_exceptions_ (arc_base (Arc.add_points sa' [q3; q1]))
   /\ num_firmware_compensations_ (arc_base sa')
      <= num_firmware_compensations_ (arc_base (Arc.add_points sa' [q3; q1])))
  /\ (let ss' := snd (Spline.try_add_point_internal_ two_points_spline_capped q3) in
      fst (Spline.try_add_point_internal_ two_points_spline_capped q3) = false
      /\ points_ (spline_base ss') = points_ (spline_base two_points_spline_capped)
      /\ original_shape_length_ (spline_base ss')
         = original_shape_length_ (spline_base two_points_spline_capped)
      /\ current_spline_ ss' = current_spline_ two_points_spline_capped
      /\ num_gcode_length_exceptions_ (spline_base ss')
         = num_gcode_length_exceptions_ (spline_base two_points_spline_capped) + 1
      /\ num_gcode_length_exceptions_ (spline_base ss')
         <= num_gcode_length_exceptions_
              (spline_base (Spline.add_points ss' [q3; q1]))).
Proof.
  destruct (filter_rejection_keeps_counters two_points_arc_capped
              two_points_spline_capped q3 [q3; q1]) as [Harc Hspline].
  split.
  - cbv zeta. split; [split; vm_compute; reflexivity|].
    apply Harc; [vm_compute; reflexivity | vm_compute; reflexivity|].
    left. vm_compute. reflexivity.
  - apply Hspline; vm_compute; reflexivity.
Defined.

Lemma firmware_filter_needs_positive_configuration_witness :
  (num_firmware_compensations_
     (arc_base (snd (Arc.try_add_point_internal_ two_points_arc_no_mm q3))) = 0
   /\ num_firmware_compensations_
        (arc_base (Arc.add_points two_points_arc_no_mm [q3; q1; q3])) = 0
   /\ fst (Arc.try_add_point_internal_ two_points_arc_no_mm q3) = true)
  /\ fst (Arc.try_add_point_internal_ two_points_arc q3) = false.
Proof.
  destruct (firmware_filter_needs_positive_configuration
              two_points_arc_no_mm q3 [q3; q1; q3]) as [Hoff _].
  destruct (firmware_filter_needs_positive_configuration
              two_points_arc q3 []) as [_ Hon].
  split.
  - destruct Hoff as (Hstep & Hrun & Hres); [right; vm_compute; reflexivity|].
    split; [rewrite Hstep; vm_compute; reflexivity|].
    split; [rewrite Hrun; vm_compute; reflexivity|].
    rewrite Hres; vm_compute; reflexivity.
  - rewrite Hon; vm_compute; reflexivity.
Defined.

(** The two general lemmas at the accepted accumulators: the arc
    prediction is the length of the arc command, the spline prediction is
    18 above the length of the spline command. *)
Lemma accepted_arc_gcode_length_exact :
  Arc.get_gcode_length accepted_arc
  = Z.of_nat (String.length (Arc.get_gcode accepted_arc)).
Proof.
  apply (arc_gcode_length_exact ref_dtos_length_law accepted_arc).
  - intros _. vm_compute. reflexivity.
  - vm_compute. reflexivity.
  - vm_compute. reflexivity.
Qed.

Lemma accepted_spline_gcode_length_excess :
  Spline.get_gcode_length accepted_spline
  = Z.of_nat (String.length (Spline.get_gcode accepted_spline)) + 18.
Proof.
  rewrite (spline_gcode_length_excess ref_dtos_length_law accepted_spline).
  - vm_compute. reflexivity.
  - intros _. vm_compute. reflexivity.
  - vm_compute. reflexivity.
  - vm_compute. reflexivity.
Qed.

End Runs.

(** * Further properties of the two accumulators *)

(** ** What one call leaves alone *)

Section Frames.
Context {U : Utilities} {C : Conversion} {SA : ArcSolver} {SS : SplineSolver}.

Lemma arc_step_frame (s : segmented_arc) (p : printer_point.t) :
  same_configuration (arc_base s) (arc_base (snd (Arc.try_add_point_internal_ s p)))
  /\ max_radius_mm_ (snd (Arc.try_add_point_internal_ s p)) = max_radius_mm_ s.
Proof. unfold same_configuration. arc_step; repeat split; reflexivity. Qed.

Lemma spline_step_frame (s : segmented_spline) (p : printer_point.t) :
  same_configuration (spline_base s)
    (spline_base (snd (Spline.try_add_point_internal_ s p))).
Proof. unfold same_configuration. spline_step; repeat split; reflexivity. Qed.

Lemma same_configuration_refl (b : segmented_shape) : same_configuration b b.
Proof. unfold same_configuration. repeat split; reflexivity. Qed.

Lemma same_configuration_trans (b1 b2 b3 : segmented_shape) :
  same_configuration b1 b2 -> same_configuration b2 b3 -> same_configuration b1 b3.
Proof.
  unfold same_configuration.
  intros (H1 & H2 & H3 & H4 & H5 & H6 & H7 & H8 & H9 & H10)
         (G1 & G2 & G3 & G4 & G5 & G6 & G7 & G8 & G9 & G10).
  repeat split; congruence.
Qed.

Lemma arc_run_max_radius (sa : segmented_arc) (ps : list printer_point.t) :
  max_radius_mm_ (Arc.add_points sa ps) = max_radius_mm_ sa.
Proof.
  revert sa. induction ps as [|p ps IH]; intros sa; cbn; [reflexivity|].
  rewrite IH. apply arc_step_frame.
Qed.

(** The configuration, the relative extrusion and the radius ceiling are
    read-only for [try_add_point_internal_]: no sequence of calls, accepted
    or rejected, changes any of them. *)
Theorem calls_never_write_the_configuration
  (sa : segmented_arc) (ss : segmented_spline) (ps : list printer_point.t) :
  same_configuration (arc_base sa) (arc_base (Arc.add_points sa ps))
  /\ max_radius_mm_ (Arc.add_points sa ps) = max_radius_mm_ sa
  /\ same_configuration (spline_base ss) (spline_base (Spline.add_points ss ps)).
Proof.
  split; [|split].
  - revert sa. induction ps as [|p ps IH]; intros sa; cbn.
    + apply same_configuration_refl.
    + eapply same_configuration_trans; [apply (arc_step_frame sa p) | apply IH].
  - apply arc_run_max_radius.
  - revert ss. induction ps as [|p ps IH]; intros ss; cbn.
    + apply same_configuration_refl.
    + eapply same_configuration_trans; [apply (spline_step_frame ss p) | apply IH].
Qed.

End Frames.

(** ** Accepted and silently rejected candidates *)

Section Outcomes.
Context {U : Utilities} {C : Conversion} {SA : ArcSolver} {SS : SplineSolver}.

Lemma arc_accepted_filters (s : segmented_arc) (p : printer_point.t) :
  fst (Arc.try_add_point_internal_ s p) = true ->
  Arc.too_few_points s = false
  /\ fst (Arc.solve s p) = true
  /\ Arc.exceeds_max_gcode_length (Arc.fitted s p) = false
  /\ Arc.firmware_guard (Arc.fitted s p) && Arc.too_few_segments (Arc.fitted s p) = false
  /\ Arc.degenerate (Arc.fitted s p) = false.
Proof.
  rewrite arc_step_result. intros H.
  repeat (apply andb_prop in H; destruct H as [H ?]).
  repeat match goal with
         | G : negb _ = true |- _ => apply negb_true_iff in G
         end.
  repeat split; assumption.
Qed.

Lemma spline_accepted_filters (s : segmented_spline) (p : printer_point.t) :
  fst (Spline.try_add_point_internal_ s p) = true ->
  Spline.too_few_points s = false
  /\ fst (Spline.solve s p) = true
  /\ Spline.exceeds_max_gcode_length (Spline.fitted s p) = false
  /\ Spline.too_short (Spline.fitted s p) = false.
Proof.
  rewrite spline_step_result. intros H.
  repeat (apply andb_prop in H; destruct H as [H ?]).
  repeat match goal with
         | G : negb _ = true |- _ => apply negb_true_iff in G
         end.
  repeat split; assumption.
Qed.

(** When the arc accumulator accepts a candidate, the candidate is the new
    last element of the buffer, its distance has been added to the original
    shape length, the current arc is the solver's, [is_shape] holds and
    neither rejection counter has moved. *)
Theorem arc_acceptance_extends_the_shape (s : segmented_arc) (p : printer_point.t) :
  fst (Arc.try_add_point_internal_ s p) = true ->
  let s' := snd (Arc.try_add_point_internal_ s p) in
  points_ (arc_base s') = points_ (arc_base s) ++ [p]
  /\ original_shape_length_ (arc_base s')
     = (original_shape_length_ (arc_base s) + printer_point.distance p)%float
  /\ current_arc_ s' = snd (Arc.solve s p)
  /\ Arc.get_length s' = arc.length (snd (Arc.solve s p))
  /\ is_shape (arc_base s') = true
  /\ num_gcode_length_exceptions_ (arc_base s')
     = num_gcode_length_exceptions_ (arc_base s)
  /\ num_firmware_compensations_ (arc_base s')
     = num_firmware_compensations_ (arc_base s).
Proof.
  intros Hacc. cbv zeta.
  destruct (arc_accepted_filters s p Hacc) as (Hfew & Hsolve & Hex & Hfw & _).
  unfold Arc.get_length.
  rewrite arc_step_points, arc_step_original_shape_length, arc_step_current_arc,
    arc_step_is_shape, arc_step_length_exceptions,
    arc_step_firmware_compensations.
  rewrite Hacc, Hfew, Hsolve, Hex, orb_true_r.
  rewrite <- (andb_assoc _ (Arc.firmware_guard _)), Hfw, !andb_false_r.
  cbn [bool_to_int]. repeat split; try reflexivity; lia.
Qed.

(** The same for the spline accumulator. *)
Theorem spline_acceptance_extends_the_shape
  (s : segmented_spline) (p : printer_point.t) :
  fst (Spline.try_add_point_internal_ s p) = true ->
  let s' := snd (Spline.try_add_point_internal_ s p) in
  points_ (spline_base s') = points_ (spline_base s) ++ [p]
  /\ original_shape_length_ (spline_base s')
     = (original_shape_length_ (spline_base s) + printer_point.distance p)%float
  /\ current_spline_ s' = snd (Spline.solve s p)
  /\ Spline.get_length s' = spline.length (snd (Spline.solve s p))
  /\ is_shape (spline_base s') = true
  /\ num_gcode_length_exceptions_ (spline_base s')
     = num_gcode_length_exceptions_ (spline_base s)
  /\ num_firmware_compensations_ (spline_base s')
     = num_firmware_compensations_ (spline_base s).
Proof.
  intros Hacc. cbv zeta.
  destruct (spline_accepted_filters s p Hacc) as (Hfew & Hsolve & Hex & _).
  unfold Spline.get_length.
  rewrite spline_step_points, spline_step_original_shape_length,
    spline_step_current_spline, spline_step_is_shape,
    spline_step_length_exceptions, spline_step_firmware_compensations.
  rewrite Hacc, Hfew, Hsolve, Hex, orb_true_r, !andb_false_r.
  cbn [bool_to_int]. repeat split; try reflexivity; lia.
Qed.

Lemma spline_step_accepted (s : segmented_spline) (p : printer_point.t) :
  fst (Spline.try_add_point_internal_ s p) = true ->
  current_spline_ (snd (Spline.try_add_point_internal_ s p)) = snd (Spline.solve s p)
  /\ Spline.too_short (Spline.fitted s p) = false.
Proof.
  intros Hacc.
  destruct (spline_accepted_filters s p Hacc) as (Hfew & Hsolve & _ & Hshort).
  rewrite spline_step_current_spline, Hacc, Hfew, Hsolve.
  split; [reflexivity | exact Hshort].
Qed.

(** An accepted spline is not shorter than the numeric tolerance. *)
Theorem accepted_spline_is_not_too_short
  (s : segmented_spline) (p : printer_point.t) :
  fst (Spline.try_add_point_internal_ s p) = true ->
  (Spline.get_length (snd (Spline.try_add_point_internal_ s p))
   <? get_xyz_tolerance (spline_base s))%float = false.
Proof.
  intros Hacc.
  destruct (spline_step_accepted s p Hacc) as [Hcur Hshort].
  unfold Spline.get_length. rewrite Hcur. exact Hshort.
Qed.

(** The rejection counters move only on a fit attempt that passed the
    solver: with too few points, or when the solver fails, the call returns
    false and both counters keep their values, for both accumulators. *)
Theorem counters_need_a_solved_fit
  (sa : segmented_arc) (ss : segmented_spline) (p : printer_point.t) :
  (Arc.too_few_points sa = true \/ fst (Arc.solve sa p) = false ->
   fst (Arc.try_add_point_internal_ sa p) = false
   /\ num_gcode_length_exceptions_ (arc_base (snd (Arc.try_add_point_internal_ sa p)))
      = num_gcode_length_exceptions_ (arc_base sa)
   /\ num_firmware_compensations_ (arc_base (snd (Arc.try_add_point_internal_ sa p)))
      = num_firmware_compensations_ (arc_base sa))
  /\ (Spline.too_few_points ss = true \/ fst (Spline.solve ss p) = false ->
      fst (Spline.try_add_point_internal_ ss p) = false
      /\ num_gcode_length_exceptions_ (spline_base (snd (Spline.try_add_point_internal_ ss p)))
         = num_gcode_length_exceptions_ (spline_base ss)).
Proof.
  split; intros Hno.
  - rewrite arc_step_result, arc_step_length_exceptions,
      arc_step_firmware_compensations.
    destruct Hno as [H | H]; rewrite H; cbn [negb andb bool_to_int];
      rewrite ?andb_false_r; cbn [andb bool_to_int];
      repeat split; try reflexivity; lia.
  - rewrite spline_step_result, spline_step_length_exceptions.
    destruct Hno as [H | H]; rewrite H; cbn [negb andb bool_to_int];
      rewrite ?andb_false_r; cbn [andb bool_to_int];
      repeat split; try reflexivity; lia.
Qed.

(** A rejection by the degeneracy test alone is silent: when the solver
    succeeds, neither the length filter nor the firmware filter fires and
    the fitted arc is degenerate (I and J within tolerance of zero, or
    length below tolerance), the call returns false, restores buffer,
    length and arc, and leaves both counters unchanged.  The same holds
    for a spline shorter than the tolerance. *)
Theorem degenerate_rejection_is_silent
  (sa : segmented_arc) (ss : segmented_spline) (p : printer_point.t) :
  (Arc.too_few_points sa = false ->
   fst (Arc.solve sa p) = true ->
   Arc.exceeds_max_gcode_length (Arc.fitted sa p) = false ->
   Arc.firmware_guard (Arc.fitted sa p) && Arc.too_few_segments (Arc.fitted sa p) = false ->
   Arc.degenerate (Arc.fitted sa p) = true ->
   let sa' := snd (Arc.try_add_point_internal_ sa p) in
   fst (Arc.try_add_point_internal_ sa p) = false
   /\ points_ (arc_base sa') = points_ (arc_base sa)
   /\ original_shape_length_ (arc_base sa') = original_shape_length_ (arc_base sa)
   /\ current_arc_ sa' = current_arc_ sa
   /\ num_gcode_length_exceptions_ (arc_base sa')
      = num_gcode_length_exceptions_ (arc_base sa)
   /\ num_firmware_compensations_ (arc_base sa')
      = num_firmware_compensations_ (arc_base sa))
  /\ (Spline.too_few_points ss = false ->
      fst (Spline.solve ss p) = true ->
      Spline.exceeds_max_gcode_length (Spline.fitted ss p) = false ->
      Spline.too_short (Spline.fitted ss p) = true ->
      let ss' := snd (Spline.try_add_point_internal_ ss p) in
      fst (Spline.try_add_point_internal_ ss p) = false
      /\ points_ (spline_base ss') = points_ (spline_base ss)
      /\ original_shape_length_ (spline_base ss') = original_shape_length_ (spline_base ss)
      /\ current_spline_ ss' = current_spline_ ss
      /\ num_gcode_length_exceptions_ (spline_base ss')
         = num_gcode_length_exceptions_ (spline_base ss)).
Proof.
  split.
  - intros Hfew Hsolve Hex Hfw Hdeg. cbv zeta.
    assert (Hres : fst (Arc.try_add_point_internal_ sa p) = false)
      by (rewrite arc_step_result, Hfew, Hsolve, Hex, Hfw, Hdeg; reflexivity).
    rewrite arc_step_points, arc_step_original_shape_length, arc_step_current_arc,
      arc_step_length_exceptions, arc_step_firmware_compensations.
    rewrite Hres, Hfew, Hsolve, Hex.
    rewrite <- (andb_assoc _ (Arc.firmware_guard _)), Hfw, !andb_false_r.
    cbn [bool_to_int]. repeat split; try reflexivity; lia.
  - intros Hfew Hsolve Hex Hshort. cbv zeta.
    assert (Hres : fst (Spline.try_add_point_internal_ ss p) = false)
      by (rewrite spline_step_result, Hfew, Hsolve, Hex, Hshort; reflexivity).
    rewrite spline_step_points, spline_step_original_shape_length,
      spline_step_current_spline, spline_step_length_exceptions.
    rewrite Hres, Hfew, Hsolve, Hex, !andb_false_r.
    cbn [bool_to_int]. repeat split; try reflexivity; lia.
Qed.

(** When the spline solver fails, the spline the accumulator ends with is
    the one the solver left, as for the arc. *)
Lemma spline_solver_failure_keeps_solver_output
  (s : segmented_spline) (p : printer_point.t) :
  Spline.too_few_points s = false ->
  fst (Spline.solve s p) = false ->
  current_spline_ (snd (Spline.try_add_point_internal_ s p)) = snd (Spline.solve s p).
Proof.
  intros Hfew Hsolve. rewrite spline_step_current_spline, Hfew, Hsolve. reflexivity.
Qed.

End Outcomes.

(** ** Sequences of calls, continued *)

Section Sequences.
Context {U : Utilities} {C : Conversion} {SA : ArcSolver} {SS : SplineSolver}.

(** An accumulator holding fewer than [min_segments - 1] points is a fixed
    point of [try_add_point_internal_]: no sequence of calls, however long,
    buffers anything or changes the accumulator. *)
Theorem too_few_points_stay_too_few
  (sa : segmented_arc) (ss : segmented_spline) (ps : list printer_point.t) :
  (Arc.too_few_points sa = true -> Arc.add_points sa ps = sa)
  /\ (Spline.too_few_points ss = true -> Spline.add_points ss ps = ss).
Proof.
  split; intros Hfew; induction ps as [|p ps IH]; cbn; try reflexivity.
  - rewrite (arc_step_too_few_points sa p Hfew). exact IH.
  - rewrite (spline_step_too_few_points ss p Hfew). exact IH.
Qed.

(** The buffer only grows at the back: after any sequence of calls it is
    the old buffer followed by some of the offered points, at most one per
    call. *)
Theorem buffer_grows_at_the_back
  (sa : segmented_arc) (ss : segmented_spline) (ps : list printer_point.t) :
  (exists qs,
     points_ (arc_base (Arc.add_points sa ps)) = points_ (arc_base sa) ++ qs
     /\ incl qs ps /\ (List.length qs <= List.length ps)%nat)
  /\ (exists qs,
        points_ (spline_base (Spline.add_points ss ps)) = points_ (spline_base ss) ++ qs
        /\ incl qs ps /\ (List.length qs <= List.length ps)%nat).
Proof.
  split.
  - revert sa. induction ps as [|p ps IH]; intros sa; cbn.
    + exists []. rewrite app_nil_r.
      split; [reflexivity | split; [apply incl_refl | cbn; lia]].
    + destruct (IH (snd (Arc.try_add_point_internal_ sa p))) as (qs & Hqs & Hincl & Hlen).
      rewrite arc_step_points in Hqs.
      destruct (fst (Arc.try_add_point_internal_ sa p)).
      * exists (p :: qs). unfold array_list.push_back in Hqs.
        rewrite <- app_assoc in Hqs.
        split; [exact Hqs | split; [|cbn; lia]].
        intros q [<- | Hq]; [left; reflexivity | right; apply Hincl; exact Hq].
      * exists qs. split; [exact Hqs | split; [|cbn; lia]].
        intros q Hq. right. apply Hincl. exact Hq.
  - revert ss. induction ps as [|p ps IH]; intros ss; cbn.
    + exists []. rewrite app_nil_r.
      split; [reflexivity | split; [apply incl_refl | cbn; lia]].
    + destruct (IH (snd (Spline.try_add_point_internal_ ss p))) as (qs & Hqs & Hincl & Hlen).
      rewrite spline_step_points in Hqs.
      destruct (fst (Spline.try_add_point_internal_ ss p)).
      * exists (p :: qs). unfold array_list.push_back in Hqs.
        rewrite <- app_assoc in Hqs.
        split; [exact Hqs | split; [|cbn; lia]].
        intros q [<- | Hq]; [left; reflexivity | right; apply Hincl; exact Hq].
      * exists qs. split; [exact Hqs | split; [|cbn; lia]].
        intros q Hq. right. apply Hincl. exact Hq.
Qed.

Lemma sum_of_distances_push_back (start : double) (pts : array_list.t) (p : printer_point.t) :
  sum_of_distances start (array_list.push_back pts p)
  = (sum_of_distances start pts + printer_point.distance p)%float.
Proof.
  unfold sum_of_distances, array_list.push_back.
  rewrite fold_left_app. reflexivity.
Qed.

(** The original shape length is the running sum of the buffered points:
    if it equals the distances of the buffered points added in buffer order
    onto some start value, it still does after any sequence of calls, bit
    for bit. *)
Theorem original_shape_length_is_the_running_sum
  (start : double) (sa : segmented_arc) (ss : segmented_spline)
  (ps : list printer_point.t) :
  (original_shape_length_ (arc_base sa)
   = sum_of_distances start (points_ (arc_base sa)) ->
   original_shape_length_ (arc_base (Arc.add_points sa ps))
   = sum_of_distances start (points_ (arc_base (Arc.add_points sa ps))))
  /\ (original_shape_length_ (spline_base ss)
      = sum_of_distances start (points_ (spline_base ss)) ->
      original_shape_length_ (spline_base (Spline.add_points ss ps))
      = sum_of_distances start (points_ (spline_base (Spline.add_points ss ps)))).
Proof.
  split.
  - revert sa. induction ps as [|p ps IH]; intros sa Hsum; cbn; [exact Hsum|].
    apply IH.
    rewrite arc_step_original_shape_length, arc_step_points.
    destruct (fst (Arc.try_add_point_internal_ sa p)); [|exact Hsum].
    rewrite sum_of_distances_push_back, Hsum. reflexivity.
  - revert ss. induction ps as [|p ps IH]; intros ss Hsum; cbn; [exact Hsum|].
    apply IH.
    rewrite spline_step_original_shape_length, spline_step_points.
    destruct (fst (Spline.try_add_point_internal_ ss p)); [|exact Hsum].
    rewrite sum_of_distances_push_back, Hsum. reflexivity.
Qed.

(** With a solver that writes its target on success only, a spline
    accumulator that holds a shape never holds one shorter than the
    numeric tolerance: the property survives every sequence of calls. *)
Theorem spline_shape_is_not_too_short
  (Hspline : spline_solver_writes_on_success_only)
  (s : segmented_spline) (ps : list printer_point.t) :
  (is_shape (spline_base s) = true -> Spline.too_short s = false) ->
  is_shape (spline_base (Spline.add_points s ps)) = true ->
  (Spline.get_length (Spline.add_points s ps)
   <? get_xyz_tolerance (spline_base (Spline.add_points s ps)))%float = false.
Proof.
  change ((Spline.get_length (Spline.add_points s ps)
           <? get_xyz_tolerance (spline_base (Spline.add_points s ps)))%float)
    with (Spline.too_short (Spline.add_points s ps)).
  revert s. induction ps as [|p ps IH]; intros s Hinv; cbn; [exact Hinv|].
  apply IH. intros Hshape.
  destruct (spline_step_configuration s p) as (_ & _ & _ & Htol).
  destruct (fst (Spline.try_add_point_internal_ s p)) eqn:Hres.
  - destruct (spline_step_accepted s p Hres) as [Hcur Hshort].
    unfold Spline.too_short, get_xyz_tolerance in *.
    rewrite Htol, Hcur. exact Hshort.
  - rewrite spline_step_is_shape, Hres, orb_false_r in Hshape.
    specialize (Hinv Hshape).
    assert (Hcur : current_spline_ (snd (Spline.try_add_point_internal_ s p))
                   = current_spline_ s).
    { rewrite spline_step_current_spline, Hres.
      destruct (Spline.too_few_points s); [reflexivity|].
      destruct (fst (Spline.solve s p)) eqn:Hsolve; [reflexivity|].
      unfold Spline.solve in *. apply Hspline. exact Hsolve. }
    unfold Spline.too_short, get_xyz_tolerance in *.
    rewrite Htol, Hcur. exact Hinv.
Qed.

End Sequences.

(** ** Construction and the radius ceiling *)

Lemma SFltb_irrefl (v : spec_float) : SFltb v v = false.
Proof.
  unfold SFltb, SFcompare.
  destruct v as [s | s | | s m e]; try destruct s; try reflexivity;
    rewrite Z.compare_refl, ?Pos.compare_cont_refl; reflexivity.
Qed.

Lemma double_lt_irrefl (v : double) : (v <? v)%float = false.
Proof. rewrite FloatAxioms.ltb_spec. apply SFltb_irrefl. Qed.

Section Ceiling.
Context {D : Construction} {U : Utilities} {C : Conversion} {SA : ArcSolver}.

(** However an arc accumulator is constructed and whatever calls follow,
    [get_max_radius] is never above [DEFAULT_MAX_RADIUS_MM]: it is the
    ceiling after default construction, and the requested radius when that
    is not above the ceiling. *)
Theorem max_radius_never_exceeds_the_ceiling
  (allow_3d_shapes : bool) (min_segments max_segments : Z)
  (mm_per_segment resolution_mm path_tolerance_percent : double)
  (max_gcode_length default_xyz_precision default_e_precision : Z)
  (max_radius_mm : double) (ps : list printer_point.t) :
  let s :=
    Constructors.segmented_arc_configured allow_3d_shapes min_segments
      max_segments mm_per_segment resolution_mm path_tolerance_percent
      max_gcode_length default_xyz_precision default_e_precision max_radius_mm in
  (DEFAULT_MAX_RADIUS_MM <? Constructors.get_max_radius (Arc.add_points s ps))%float = false
  /\ ((DEFAULT_MAX_RADIUS_MM <? max_radius_mm)%float = false ->
      Constructors.get_max_radius (Arc.add_points s ps) = max_radius_mm)
  /\ ((DEFAULT_MAX_RADIUS_MM <? max_radius_mm)%float = true ->
      Constructors.get_max_radius (Arc.add_points s ps) = DEFAULT_MAX_RADIUS_MM)
  /\ Constructors.get_max_radius
       (Arc.add_points Constructors.segmented_arc_default ps)
     = DEFAULT_MAX_RADIUS_MM.
Proof.
  cbv zeta. unfold Constructors.get_max_radius.
  rewrite !arc_run_max_radius.
  unfold Constructors.segmented_arc_configured, Constructors.segmented_arc_default.
  cbn [max_radius_mm_].
  destruct (DEFAULT_MAX_RADIUS_MM <? max_radius_mm)%float eqn:Habove.
  - repeat split; try reflexivity; try discriminate. apply double_lt_irrefl.
  - repeat split; try reflexivity; try discriminate. exact Habove.
Qed.

End Ceiling.

(** ** The command emitter, continued *)

Section Terms.
Context {U : Utilities}.

Lemma dtos_emits_numeric_only
  (Hnum : dtos_is_numeric) (c : ascii) (v : double) (precision : Z) :
  ~ In c numeric_chars -> ~ emits c (dtos v precision).
Proof. intros Hc H. apply Hc. exact (Hnum v precision c H). Qed.

Lemma letter_is_not_numeric (c : ascii) :
  In c ["E"; "F"; "I"; "J"; "P"; "Q"]%char -> ~ In c numeric_chars.
Proof.
  cbn. intros Hc Hn.
  repeat (destruct Hc as [<- | Hc];
          [repeat (destruct Hn as [Hn | Hn]; [discriminate Hn|]); exact Hn|]).
  exact Hc.
Qed.

Ltac refute_letter Hnum H :=
  repeat (apply emits_app in H; destruct H as [H | H]);
  solve [ exfalso; refine (dtos_emits_numeric_only Hnum _ _ _ _ H);
          apply letter_is_not_numeric; cbn; tauto
        | exfalso; unfold emits in H; cbn in H; intuition discriminate ].

Ltac find_letter := repeat rewrite emits_app; unfold emits; cbn; tauto.

Lemma prefix_empty (g : string) : String.prefix EmptyString g = true.
Proof. destruct g; reflexivity. Qed.

(** The command keyword.  An arc command starts with [G2] exactly when the
    fitted sweep angle is negative and with [G3] otherwise, a spline
    command always starts with [G5]; the X term follows at once. *)
Theorem command_keyword (sa : segmented_arc) (ss : segmented_spline) :
  String.prefix "G2 X" (Arc.get_gcode sa)
  = (arc.angle_radians (current_arc_ sa) <? 0)%float
  /\ String.prefix "G3 X" (Arc.get_gcode sa)
     = negb (arc.angle_radians (current_arc_ sa) <? 0)%float
  /\ String.prefix "G5 X" (Spline.get_gcode ss) = true.
Proof.
  unfold Arc.get_gcode, Spline.get_gcode. cbv zeta.
  destruct (arc.angle_radians (current_arc_ sa) <? 0)%float;
    destruct (allow_3d_shapes_ (arc_base sa) && negb _);
    destruct (negb (e_relative_ (arc_base sa) =? 0)%float);
    destruct (greater_than_or_equal _ _);
    destruct (negb (is_equal _ _ _));
    destruct (negb (e_relative_ (spline_base ss) =? 0)%float);
    destruct (greater_than_or_equal _ _);
    cbn; rewrite ?prefix_empty; repeat split; reflexivity.
Qed.

(** The optional E and F terms.  With [dtos] rendering numbers only, a
    command of either kind carries an E term exactly when the relative
    extrusion of the shape is not 0, and an F term exactly when the end
    point's feed rate differs from the start point's and passes
    [greater_than_or_equal(f, 1)]. *)
Theorem extrusion_and_feed_rate_terms
  (Hnum : dtos_is_numeric) (sa : segmented_arc) (ss : segmented_spline) :
  (emits "E" (Arc.get_gcode sa) <-> (e_relative_ (arc_base sa) =? 0)%float = false)
  /\ (emits "F" (Arc.get_gcode sa) <->
      greater_than_or_equal
        (feed_rate (arc.start_point (current_arc_ sa)) (arc.end_point (current_arc_ sa)))
        1%float = true)
  /\ (emits "E" (Spline.get_gcode ss) <-> (e_relative_ (spline_base ss) =? 0)%float = false)
  /\ (emits "F" (Spline.get_gcode ss) <->
      greater_than_or_equal
        (feed_rate (spline.start_point (current_spline_ ss))
           (spline.end_point (current_spline_ ss)))
        1%float = true).
Proof.
  unfold feed_rate.
  split; [|split; [|split]].
  - unfold Arc.get_gcode. cbv zeta.
    destruct (e_relative_ (arc_base sa) =? 0)%float;
      destruct (allow_3d_shapes_ (arc_base sa) && negb _);
      destruct (greater_than_or_equal _ _);
      destruct (arc.angle_radians (current_arc_ sa) <? 0)%float;
      cbn [negb]; (split; [intros H | intros Hz]); try discriminate;
      try reflexivity; try (refute_letter Hnum H); find_letter.
  - unfold Arc.get_gcode. cbv zeta.
    destruct (greater_than_or_equal _ _);
      destruct (negb (e_relative_ (arc_base sa) =? 0)%float);
      destruct (allow_3d_shapes_ (arc_base sa) && negb _);
      destruct (arc.angle_radians (current_arc_ sa) <? 0)%float;
      (split; [intros H | intros Hz]); try discriminate;
      try reflexivity; try (refute_letter Hnum H); find_letter.
  - unfold Spline.get_gcode. cbv zeta.
    destruct (e_relative_ (spline_base ss) =? 0)%float;
      destruct (negb (is_equal _ _ _));
      destruct (greater_than_or_equal _ _);
      cbn [negb]; (split; [intros H | intros Hz]); try discriminate;
      try reflexivity; try (refute_letter Hnum H); find_letter.
  - unfold Spline.get_gcode. cbv zeta.
    destruct (greater_than_or_equal _ _);
      destruct (negb (e_relative_ (spline_base ss) =? 0)%float);
      destruct (negb (is_equal _ _ _));
      (split; [intros H | intros Hz]); try discriminate;
      try reflexivity; try (refute_letter Hnum H); find_letter.
Qed.

(** The centre offsets.  An arc command always carries an I and a J term,
    whatever their values; with [dtos] rendering numbers only, a spline
    command never carries an I, J, P or Q term. *)
Theorem centre_offset_terms
  (Hnum : dtos_is_numeric) (sa : segmented_arc) (ss : segmented_spline) :
  (emits "I" (Arc.get_gcode sa) /\ emits "J" (Arc.get_gcode sa))
  /\ (forall c, In c ["I"; "J"; "P"; "Q"]%char -> ~ emits c (Spline.get_gcode ss)).
Proof.
  split.
  - unfold Arc.get_gcode. cbv zeta.
    destruct (allow_3d_shapes_ (arc_base sa) && negb _);
      destruct (negb (e_relative_ (arc_base sa) =? 0)%float);
      destruct (greater_than_or_equal _ _);
      destruct (arc.angle_radians (current_arc_ sa) <? 0)%float;
      split; find_letter.
  - intros c Hc.
    assert (Hletter : ~ In c numeric_chars).
    { apply letter_is_not_numeric. cbn in *. tauto. }
    assert (Hdtos : forall v q, ~ emits c (dtos v q))
      by (intros v q; apply dtos_emits_numeric_only; assumption).
    assert (Hlit : forall l, In l ["G5"; " X"; " Y"; " Z"; " E"; " F"]%string -> ~ emits c l).
    { intros l Hl H. cbn in Hl, Hc. unfold emits in H.
      repeat (destruct Hl as [<- | Hl];
              [cbn in H; repeat (destruct Hc as [<- | Hc];
                                 [intuition discriminate|]); exact Hc|]).
      exact Hl. }
    unfold Spline.get_gcode. cbv zeta.
    destruct (negb (is_equal _ _ _));
      destruct (negb (e_relative_ (spline_base ss) =? 0)%float);
      destruct (greater_than_or_equal _ _);
      intros H;
      repeat (apply emits_app in H; destruct H as [H | H]);
      solve [ exact (Hdtos _ _ H)
            | refine (Hlit _ _ H); cbn; tauto
            | destruct H ].
Qed.

End Terms.

(** ** Predicted and actual command length *)

Section Lengths.
Context {U : Utilities} {C : Conversion} {SA : ArcSolver} {SS : SplineSolver}.

Ltac lengths :=
  repeat rewrite string_length_app; repeat rewrite Nat2Z.inj_add.

(** The arc prediction is exact.  If [dtos] renders a value as its minus
    sign, [get_num_digits] digits and, at a positive precision, a decimal
    point and [precision] decimals, and a feed rate that passes the
    feed-rate test is not negative, then for positive precisions
    [get_gcode_length] is the number of characters of [get_gcode], with or
    without Z, E and F terms and for either direction. *)
Theorem arc_prediction_is_exact
  (Hlaw : dtos_length_law) (s : segmented_arc)
  (Hf : emitted_feed_rate_is_not_negative
          (arc.start_point (current_arc_ s)) (arc.end_point (current_arc_ s)))
  (Hxyz : 0 < get_xyz_precision (arc_base s))
  (He : 0 < get_e_precision (arc_base s)) :
  Arc.get_gcode_length s = Z.of_nat (String.length (Arc.get_gcode s)).
Proof.
  assert (Hp : forall q, 0 < q -> (if q =? 0 then 0 else 1 + q) = 1 + q).
  { intros q Hq. destruct (Z.eqb_spec q 0); lia. }
  unfold Arc.get_gcode_length, Arc.get_gcode. cbv zeta.
  unfold emitted_feed_rate_is_not_negative, feed_rate in Hf.
  set (f := if (_ =? _)%float then 0%float else _) in *.
  destruct (greater_than_or_equal f 1) eqn:Hhas_f;
    destruct (negb (e_relative_ (arc_base s) =? 0)%float);
    destruct (allow_3d_shapes_ (arc_base s) && negb _);
    destruct (arc.angle_radians (current_arc_ s) <? 0)%float;
    cbn [andb]; lengths; rewrite !Hlaw by lia;
    rewrite ?Hf by reflexivity; rewrite ?(Hp _ Hxyz), ?(Hp _ He);
    cbn [String.length Z.eqb]; lia.
Qed.

(** At position precision 0 the arc prediction is too large: under the same
    assumptions on [dtos] (no decimal point at precision 0, as the F term
    is counted), [get_gcode_length] still counts a decimal point for X, Y,
    I, J and Z, so it exceeds the length of [get_gcode] by 4, or by 5 when
    a Z term is emitted. *)
Theorem arc_prediction_at_precision_zero
  (Hlaw : dtos_length_law) (s : segmented_arc)
  (Hf : emitted_feed_rate_is_not_negative
          (arc.start_point (current_arc_ s)) (arc.end_point (current_arc_ s)))
  (Hxyz : get_xyz_precision (arc_base s) = 0)
  (He : 0 < get_e_precision (arc_base s)) :
  Arc.get_gcode_length s
  = Z.of_nat (String.length (Arc.get_gcode s)) + 4
    + (if allow_3d_shapes_ (arc_base s)
          && negb (is_equal (printer_point.z (arc.start_point (current_arc_ s)))
                     (printer_point.z (arc.end_point (current_arc_ s)))
                     (get_xyz_tolerance (arc_base s)))
       then 1 else 0).
Proof.
  assert (Hp : forall q, 0 < q -> (if q =? 0 then 0 else 1 + q) = 1 + q).
  { intros q Hq. destruct (Z.eqb_spec q 0); lia. }
  unfold Arc.get_gcode_length, Arc.get_gcode. cbv zeta.
  unfold emitted_feed_rate_is_not_negative, feed_rate in Hf.
  set (f := if (_ =? _)%float then 0%float else _) in *.
  rewrite Hxyz.
  destruct (greater_than_or_equal f 1) eqn:Hhas_f;
    destruct (negb (e_relative_ (arc_base s) =? 0)%float);
    destruct (allow_3d_shapes_ (arc_base s) && negb _);
    destruct (arc.angle_radians (current_arc_ s) <? 0)%float;
    cbn [andb]; lengths; rewrite !Hlaw by lia;
    rewrite ?Hf by reflexivity; rewrite ?(Hp _ He);
    cbn [String.length Z.eqb]; lia.
Qed.

Lemma arc_get_gcode_accepted (s : segmented_arc) (p : printer_point.t) :
  fst (Arc.try_add_point_internal_ s p) = true ->
  Arc.get_gcode (snd (Arc.try_add_point_internal_ s p)) = Arc.get_gcode (Arc.fitted s p).
Proof.
  intros Hacc.
  destruct (arc_step_frame s p)
    as [(H1 & H2 & _ & _ & _ & _ & _ & H8 & H9 & H10) _].
  destruct (arc_step_accepted s p Hacc) as [Hcur _].
  unfold Arc.get_gcode, get_xyz_tolerance, get_xyz_precision, get_e_precision.
  cbv zeta. rewrite Hcur, H1, H2, H8, H9, H10. reflexivity.
Qed.

Lemma spline_get_gcode_accepted (s : segmented_spline) (p : printer_point.t) :
  fst (Spline.try_add_point_internal_ s p) = true ->
  Spline.get_gcode (snd (Spline.try_add_point_internal_ s p))
  = Spline.get_gcode (Spline.fitted s p).
Proof.
  intros Hacc.
  destruct (spline_step_frame s p) as (H1 & _ & _ & _ & _ & _ & _ & H8 & H9 & H10).
  destruct (spline_step_accepted s p Hacc) as [Hcur _].
  unfold Spline.get_gcode, get_xyz_tolerance, get_xyz_precision, get_e_precision.
  cbv zeta. rewrite Hcur, H1, H8, H9, H10. reflexivity.
Qed.

(** The cap on the command length is kept.  With a positive
    [max_gcode_length_], positive precisions and [dtos], [get_num_digits]
    related as above, the command of every accepted arc has at most
    [max_gcode_length_] characters. *)
Theorem accepted_arc_command_fits_the_cap
  (Hlaw : dtos_length_law) (s : segmented_arc) (p : printer_point.t)
  (Hacc : fst (Arc.try_add_point_internal_ s p) = true)
  (Hcap : 0 < max_gcode_length_ (arc_base s))
  (Hxyz : 0 < get_xyz_precision (arc_base s))
  (He : 0 < get_e_precision (arc_base s))
  (Hf : emitted_feed_rate_is_not_negative
          (arc.start_point (snd (Arc.solve s p)))
          (arc.end_point (snd (Arc.solve s p)))) :
  Z.of_nat (String.length (Arc.get_gcode (snd (Arc.try_add_point_internal_ s p))))
  <= max_gcode_length_ (arc_base s).
Proof.
  rewrite (arc_get_gcode_accepted s p Hacc).
  rewrite <- (arc_gcode_length_exact Hlaw (Arc.fitted s p) Hf Hxyz He).
  destruct (arc_accepted_filters s p Hacc) as (_ & _ & Hex & _).
  destruct (Z.ltb_spec (max_gcode_length_ (arc_base s))
              (Arc.get_gcode_length (Arc.fitted s p))) as [Hlong | Hok];
    [|exact Hok].
  assert (Arc.exceeds_max_gcode_length (Arc.fitted s p) = true)
    by (apply arc_exceeds_iff; split; assumption).
  congruence.
Qed.

(** For splines the cap is kept with room to spare: under the same
    assumptions the command of every accepted spline is shorter than
    [max_gcode_length_] by at least the excess of the spline prediction. *)
Theorem accepted_spline_command_fits_the_cap
  (Hlaw : dtos_length_law) (s : segmented_spline) (p : printer_point.t)
  (Hacc : fst (Spline.try_add_point_internal_ s p) = true)
  (Hcap : 0 < max_gcode_length_ (spline_base s))
  (Hxyz : 0 < get_xyz_precision (spline_base s))
  (He : 0 < get_e_precision (spline_base s))
  (Hf : emitted_feed_rate_is_not_negative
          (spline.start_point (snd (Spline.solve s p)))
          (spline.end_point (snd (Spline.solve s p)))) :
  Z.of_nat (String.length (Spline.get_gcode (snd (Spline.try_add_point_internal_ s p))))
  + 8 + 4 * get_num_digits 0.0%float (get_xyz_precision (spline_base s))
  + 2 * get_xyz_precision (spline_base s)
  <= max_gcode_length_ (spline_base s).
Proof.
  rewrite (spline_get_gcode_accepted s p Hacc).
  pose proof (spline_gcode_length_excess Hlaw (Spline.fitted s p) Hf Hxyz He) as Hexcess.
  change (get_xyz_precision (spline_base (Spline.fitted s p)))
    with (get_xyz_precision (spline_base s)) in Hexcess.
  rewrite <- Hexcess.
  destruct (spline_accepted_filters s p Hacc) as (_ & _ & Hex & _).
  destruct (Z.ltb_spec (max_gcode_length_ (spline_base s))
              (Spline.get_gcode_length (Spline.fitted s p))) as [Hlong | Hok];
    [|exact Hok].
  assert (Spline.exceeds_max_gcode_length (Spline.fitted s p) = true)
    by (apply spline_exceeds_iff; split; assumption).
  congruence.
Qed.

End Lengths.

(** The Z term of an arc command.  With [dtos] rendering numbers only, an
    arc command carries a Z term exactly when 3-axis shapes are allowed
    and the end point's Z is not equal to the start point's Z within the
    numeric tolerance. *)
Theorem arc_z_term
  {U : Utilities} (Hnum : dtos_is_numeric) (s : segmented_arc) :
  emits "Z" (Arc.get_gcode s) <->
  allow_3d_shapes_ (arc_base s) = true
  /\ is_equal (printer_point.z (arc.start_point (current_arc_ s)))
       (printer_point.z (arc.end_point (current_arc_ s)))
       (get_xyz_tolerance (arc_base s)) = false.
Proof.
  exact (proj1 (z_term_emission Hnum s
                  (mk_segmented_spline (arc_base s)
                     (spline.mk (arc.start_point (current_arc_ s))
                        (arc.end_point (current_arc_ s)) 0)))).
Qed.

(** * Concrete runs, continued *)

Module MoreRuns.
Import Reference Examples MoreExamples.

Lemma arc_acceptance_extends_the_shape_witness :
  fst (Arc.try_add_point_internal_ two_points_arc_no_mm q3) = true
  /\ points_ (arc_base (snd (Arc.try_add_point_internal_ two_points_arc_no_mm q3)))
     = [q1; q2] ++ [q3]
  /\ num_firmware_compensations_
       (arc_base (snd (Arc.try_add_point_internal_ two_points_arc_no_mm q3)))
     = num_firmware_compensations_ (arc_base two_points_arc_no_mm).
Proof.
  assert (Hacc : fst (Arc.try_add_point_internal_ two_points_arc_no_mm q3) = true)
    by (vm_compute; reflexivity).
  destruct (arc_acceptance_extends_the_shape two_points_arc_no_mm q3 Hacc)
    as (Hpts & _ & _ & _ & _ & _ & Hfw).
  split; [exact Hacc | split; [exact Hpts | exact Hfw]].
Defined.

Lemma spline_acceptance_extends_the_shape_witness :
  fst (Spline.try_add_point_internal_ two_points_spline q3) = true
  /\ points_ (spline_base (snd (Spline.try_add_point_internal_ two_points_spline q3)))
     = [q1; q2] ++ [q3]
  /\ is_shape (spline_base (snd (Spline.try_add_point_internal_ two_points_spline q3)))
     = true.
Proof.
  assert (Hacc : fst (Spline.try_add_point_internal_ two_points_spline q3) = true)
    by (vm_compute; reflexivity).
  destruct (spline_acceptance_extends_the_shape two_points_spline q3 Hacc)
    as (Hpts & _ & _ & _ & Hshape & _).
  split; [exact Hacc | split; [exact Hpts | exact Hshape]].
Defined.

Lemma accepted_spline_is_not_too_short_witness :
  fst (Spline.try_add_point_internal_ two_points_spline q3) = true
  /\ (Spline.get_length (snd (Spline.try_add_point_internal_ two_points_spline q3))
      <? get_xyz_tolerance (spline_base two_points_spline))%float = false.
Proof.
  assert (Hacc : fst (Spline.try_add_point_internal_ two_points_spline q3) = true)
    by (vm_compute; reflexivity).
  split; [exact Hacc|].
  exact (accepted_spline_is_not_too_short two_points_spline q3 Hacc).
Defined.

Lemma counters_need_a_solved_fit_witness :
  (fst (Arc.solve two_points_arc q_line) = false
   /\ Spline.too_few_points empty_spline = true)
  /\ (fst (Arc.try_add_point_internal_ two_points_arc q_line) = false
      /\ num_gcode_length_exceptions_
           (arc_base (snd (Arc.try_add_point_internal_ two_points_arc q_line)))
         = num_gcode_length_exceptions_ (arc_base two_points_arc)
      /\ num_firmware_compensations_
           (arc_base (snd (Arc.try_add_point_internal_ two_points_arc q_line)))
         = num_firmware_compensations_ (arc_base two_points_arc))
  /\ (fst (Spline.try_add_point_internal_ empty_spline q_line) = false
      /\ num_gcode_length_exceptions_
           (spline_base (snd (Spline.try_add_point_internal_ empty_spline q_line)))
         = num_gcode_length_exceptions_ (spline_base empty_spline)).
Proof.
  assert (Ha : fst (Arc.solve two_points_arc q_line) = false)
    by (vm_compute; reflexivity).
  assert (Hs : Spline.too_few_points empty_spline = true)
    by (vm_compute; reflexivity).
  destruct (counters_need_a_solved_fit two_points_arc empty_spline q_line)
    as [Harc Hspline].
  split; [split; assumption|].
  split; [apply Harc; right; exact Ha | apply Hspline; left; exact Hs].
Defined.

Lemma degenerate_rejection_is_silent_witness :
  (let sa' := snd (Arc.try_add_point_internal_ two_points_arc_still q3_still) in
   fst (Arc.try_add_point_internal_ two_points_arc_still q3_still) = false
   /\ points_ (arc_base sa') = points_ (arc_base two_points_arc_still)
   /\ original_shape_length_ (arc_base sa')
      = original_shape_length_ (arc_base two_points_arc_still)
   /\ current_arc_ sa' = current_arc_ two_points_arc_still
   /\ num_gcode_length_exceptions_ (arc_base sa')
      = num_gcode_length_exceptions_ (arc_base two_points_arc_still)
   /\ num_firmware_compensations_ (arc_base sa')
      = num_firmware_compensations_ (arc_base two_points_arc_still))
  /\ (let ss' := snd (Spline.try_add_point_internal_ two_points_spline_still q3_still) in
      fst (Spline.try_add_point_internal_ two_points_spline_still q3_still) = false
      /\ points_ (spline_base ss') = points_ (spline_base two_points_spline_still)
      /\ original_shape_length_ (spline_base ss')
         = original_shape_length_ (spline_base two_points_spline_still)
      /\ current_spline_ ss' = current_spline_ two_points_spline_still
      /\ num_gcode_length_exceptions_ (spline_base ss')
         = num_gcode_length_exceptions_ (spline_base two_points_spline_still)).
Proof.
  destruct (degenerate_rejection_is_silent two_points_arc_still
              two_points_spline_still q3_still) as [Harc Hspline].
  split; [apply Harc | apply Hspline]; vm_compute; reflexivity.
Defined.

Lemma arc_solver_failure_keeps_solver_output_witness :
  let s' := snd (Arc.try_add_point_internal_ (Solver := scribbling_solver)
                   two_points_arc q3) in
  fst (Arc.try_add_point_internal_ (Solver := scribbling_solver) two_points_arc q3)
  = false
  /\ current_arc_ s' = snd (Arc.solve (Solver := scribbling_solver) two_points_arc q3)
  /\ arc.radius (current_arc_ s') = 1%float
  /\ arc.radius (current_arc_ two_points_arc) = 0%float.
Proof.
  cbv zeta. split; [vm_compute; reflexivity|].
  assert (Hout := arc_solver_failure_keeps_solver_output
                    (SA := scribbling_solver) two_points_arc q3).
  split; [apply Hout; vm_compute; reflexivity|].
  split; vm_compute; reflexivity.
Defined.

Lemma arc_shape_is_not_degenerate_witness :
  is_shape (arc_base (Arc.add_points two_points_arc_no_mm [q3; q_line])) = true
  /\ Arc.degenerate (Arc.add_points two_points_arc_no_mm [q3; q_line]) = false.
Proof.
  assert (Hshape :
    is_shape (arc_base (Arc.add_points two_points_arc_no_mm [q3; q_line])) = true)
    by (vm_compute; reflexivity).
  split; [exact Hshape|].
  apply (arc_shape_is_not_degenerate circle_through_three_contract
           two_points_arc_no_mm [q3; q_line]); [|exact Hshape].
  intros H. vm_compute in H. discriminate H.
Defined.

Lemma spline_shape_is_not_too_short_witness :
  is_shape (spline_base (Spline.add_points two_points_spline [q3; q_line])) = true
  /\ (Spline.get_length (Spline.add_points two_points_spline [q3; q_line])
      <? get_xyz_tolerance
           (spline_base (Spline.add_points two_points_spline [q3; q_line])))%float
     = false.
Proof.
  assert (Hshape :
    is_shape (spline_base (Spline.add_points two_points_spline [q3; q_line])) = true)
    by (vm_compute; reflexivity).
  split; [exact Hshape|].
  apply (spline_shape_is_not_too_short chord_spline_contract
           two_points_spline [q3; q_line]); [|exact Hshape].
  intros H. vm_compute in H. discriminate H.
Defined.

Lemma too_few_points_stay_too_few_witness :
  Arc.add_points empty_arc [q1; q2; q3] = empty_arc
  /\ Spline.add_points empty_spline [q1; q2; q3] = empty_spline.
Proof.
  destruct (too_few_points_stay_too_few empty_arc empty_spline [q1; q2; q3])
    as [Harc Hspline].
  split; [apply Harc | apply Hspline]; vm_compute; reflexivity.
Defined.

Lemma original_shape_length_is_the_running_sum_witness :
  original_shape_length_ (arc_base (Arc.add_points two_points_arc_no_mm [q3; q_line]))
  = sum_of_distances 0%float
      (points_ (arc_base (Arc.add_points two_points_arc_no_mm [q3; q_line])))
  /\ original_shape_length_
       (spline_base (Spline.add_points two_points_spline_capped [q3; q_line]))
     = sum_of_distances 0%float
         (points_ (spline_base (Spline.add_points two_points_spline_capped [q3; q_line]))).
Proof.
  destruct (original_shape_length_is_the_running_sum 0%float two_points_arc_no_mm
              two_points_spline_capped [q3; q_line]) as [Harc Hspline].
  split; [apply Harc | apply Hspline]; vm_compute; reflexivity.
Defined.

Lemma max_radius_never_exceeds_the_ceiling_witness :
  Constructors.get_max_radius
    (Arc.add_points
       (Constructors.segmented_arc_configured (D := reference_construction)
          false 3 50 0 0.0625 0.0625 0 3 5 100)
       [q1; q2; q3]) = 100%float
  /\ Constructors.get_max_radius
       (Arc.add_points
          (Constructors.segmented_arc_configured (D := reference_construction)
             false 3 50 0 0.0625 0.0625 0 3 5 20000)
          [q1; q2; q3]) = 9999%float.
Proof.
  destruct (max_radius_never_exceeds_the_ceiling (D := reference_construction)
              false 3 50 0 0.0625 0.0625 0 3 5 100 [q1; q2; q3])
    as (_ & Hbelow & _).
  destruct (max_radius_never_exceeds_the_ceiling (D := reference_construction)
              false 3 50 0 0.0625 0.0625 0 3 5 20000 [q1; q2; q3])
    as (_ & _ & Habove & _).
  split; [apply Hbelow | apply Habove]; vm_compute; reflexivity.
Defined.

Lemma extrusion_and_feed_rate_terms_witness :
  (emits "E" (Arc.get_gcode accepted_arc)
   <-> (e_relative_ (arc_base accepted_arc) =? 0)%float = false)
  /\ (emits "F" (Spline.get_gcode rising_spline) <->
      greater_than_or_equal
        (feed_rate (spline.start_point (current_spline_ rising_spline))
           (spline.end_point (current_spline_ rising_spline)))
        1%float = true).
Proof.
  destruct (extrusion_and_feed_rate_terms ref_dtos_is_numeric accepted_arc
              rising_spline) as (He & _ & _ & Hf).
  split; [exact He | exact Hf].
Defined.

Lemma centre_offset_terms_witness :
  (emits "I" (Arc.get_gcode accepted_arc) /\ emits "J" (Arc.get_gcode accepted_arc))
  /\ ~ emits "I" (Spline.get_gcode rising_spline).
Proof.
  destruct (centre_offset_terms ref_dtos_is_numeric accepted_arc rising_spline)
    as [Harc Hspline].
  split; [exact Harc|]. apply Hspline. cbn. tauto.
Defined.

Lemma arc_prediction_is_exact_witness :
  Arc.get_gcode_length accepted_arc
  = Z.of_nat (String.length (Arc.get_gcode accepted_arc))
  /\ Arc.get_gcode_length accepted_arc = 40.
Proof.
  split; [|vm_compute; reflexivity].
  apply (arc_prediction_is_exact ref_dtos_length_law accepted_arc).
  - intros _. vm_compute. reflexivity.
  - vm_compute. reflexivity.
  - vm_compute. reflexivity.
Defined.

Lemma arc_prediction_at_precision_zero_witness :
  Arc.get_gcode coarse_arc = "G3 X-1 Y-1 I-1 J-1 F1800"%string
  /\ Arc.get_gcode_length coarse_arc
     = Z.of_nat (String.length (Arc.get_gcode coarse_arc)) + 4 + 0.
Proof.
  split; [vm_compute; reflexivity|].
  apply (arc_prediction_at_precision_zero ref_dtos_length_law coarse_arc).
  - intros _. vm_compute. reflexivity.
  - vm_compute. reflexivity.
  - vm_compute. reflexivity.
Defined.

Lemma accepted_arc_command_fits_the_cap_witness :
  fst (Arc.try_add_point_internal_ two_points_arc_cap50 q3) = true
  /\ Z.of_nat (String.length
                 (Arc.get_gcode (snd (Arc.try_add_point_internal_ two_points_arc_cap50 q3))))
     <= max_gcode_length_ (arc_base two_points_arc_cap50).
Proof.
  assert (Hacc : fst (Arc.try_add_point_internal_ two_points_arc_cap50 q3) = true)
    by (vm_compute; reflexivity).
  split; [exact Hacc|].
  apply (accepted_arc_command_fits_the_cap ref_dtos_length_law
           two_points_arc_cap50 q3 Hacc).
  - vm_compute. reflexivity.
  - vm_compute. reflexivity.
  - vm_compute. reflexivity.
  - intros _. vm_compute. reflexivity.
Defined.

Lemma accepted_spline_command_fits_the_cap_witness :
  fst (Spline.try_add_point_internal_ two_points_spline_cap50 q3) = true
  /\ Z.of_nat (String.length
                 (Spline.get_gcode
                    (snd (Spline.try_add_point_internal_ two_points_spline_cap50 q3))))
     + 8 + 4 * get_num_digits 0.0%float (get_xyz_precision (spline_base two_points_spline_cap50))
     + 2 * get_xyz_precision (spline_base two_points_spline_cap50)
     <= max_gcode_length_ (spline_base two_points_spline_cap50).
Proof.
  assert (Hacc : fst (Spline.try_add_point_internal_ two_points_spline_cap50 q3) = true)
    by (vm_compute; reflexivity).
  split; [exact Hacc|].
  apply (accepted_spline_command_fits_the_cap ref_dtos_length_law
           two_points_spline_cap50 q3 Hacc).
  - vm_compute. reflexivity.
  - vm_compute. reflexivity.
  - vm_compute. reflexivity.
  - intros _. vm_compute. reflexivity.
Defined.

Lemma arc_z_term_witness :
  emits "Z" (Arc.get_gcode accepted_arc) <->
  allow_3d_shapes_ (arc_base accepted_arc) = true
  /\ is_equal (printer_point.z (arc.start_point (current_arc_ accepted_arc)))
       (printer_point.z (arc.end_point (current_arc_ accepted_arc)))
       (get_xyz_tolerance (arc_base accepted_arc)) = false.
Proof. exact (arc_z_term ref_dtos_is_numeric accepted_arc). Defined.

End MoreRuns.

(** * The public entry point on a short buffer *)

(** C5 (too few points are buffered unconditionally).  With fewer than
    [min_segments - 1] points buffered, [try_add_point] returns true with
    the candidate appended to the buffer and its distance added to the
    original shape length; no fit is attempted: the result is the same
    whatever the solver, and the curve model, the shape flag and both
    counters are as before.  This holds for the arc and for the spline
    accumulator. *)
Theorem try_add_point_buffers_on_a_short_buffer
  {U : Utilities} {C : Conversion}
  (arc_solver other_arc_solver : ArcSolver)
  (spline_solver other_spline_solver : SplineSolver)
  (sa : segmented_arc) (ss : segmented_spline) (p : printer_point.t) :
  (array_list.count (points_ (arc_base sa)) < get_min_segments (arc_base sa) - 1 ->
   let r := arc_try_add_point (Solver := arc_solver) sa p in
   fst r = true
   /\ points_ (arc_base (snd r)) = array_list.push_back (points_ (arc_base sa)) p
   /\ original_shape_length_ (arc_base (snd r))
      = (original_shape_length_ (arc_base sa) + printer_point.distance p)%float
   /\ current_arc_ (snd r) = current_arc_ sa
   /\ is_shape (arc_base (snd r)) = is_shape (arc_base sa)
   /\ num_gcode_length_exceptions_ (arc_base (snd r))
      = num_gcode_length_exceptions_ (arc_base sa)
   /\ num_firmware_compensations_ (arc_base (snd r))
      = num_firmware_compensations_ (arc_base sa)
   /\ r = arc_try_add_point (Solver := other_arc_solver) sa p)
  /\ (array_list.count (points_ (spline_base ss)) < get_min_segments (spline_base ss) - 1 ->
      let r := spline_try_add_point (Solver := spline_solver) ss p in
      fst r = true
      /\ points_ (spline_base (snd r)) = array_list.push_back (points_ (spline_base ss)) p
      /\ original_shape_length_ (spline_base (snd r))
         = (original_shape_length_ (spline_base ss) + printer_point.distance p)%float
      /\ current_spline_ (snd r) = current_spline_ ss
      /\ is_shape (spline_base (snd r)) = is_shape (spline_base ss)
      /\ num_gcode_length_exceptions_ (spline_base (snd r))
         = num_gcode_length_exceptions_ (spline_base ss)
      /\ num_firmware_compensations_ (spline_base (snd r))
         = num_firmware_compensations_ (spline_base ss)
      /\ r = spline_try_add_point (Solver := other_spline_solver) ss p).
Proof.
  split; intros Hfew; apply Z.ltb_lt in Hfew; cbv zeta.
  - unfold arc_try_add_point, try_add_point. rewrite Hfew.
    cbn. repeat split; reflexivity.
  - unfold spline_try_add_point, try_add_point. rewrite Hfew.
    cbn. repeat split; reflexivity.
Qed.

Module EntryRuns.
Import Reference Examples.

Lemma try_add_point_buffers_on_a_short_buffer_witness :
  (array_list.count (points_ (arc_base empty_arc)) < get_min_segments (arc_base empty_arc) - 1
   /\ array_list.count (points_ (spline_base empty_spline))
      < get_min_segments (spline_base empty_spline) - 1)
  /\ (fst (arc_try_add_point empty_arc q1) = true
      /\ points_ (arc_base (snd (arc_try_add_point empty_arc q1))) = [q1])
  /\ (fst (spline_try_add_point empty_spline q1) = true
      /\ points_ (spline_base (snd (spline_try_add_point empty_spline q1))) = [q1]).
Proof.
  assert (Ha : array_list.count (points_ (arc_base empty_arc))
               < get_min_segments (arc_base empty_arc) - 1)
    by (vm_compute; reflexivity).
  assert (Hs : array_list.count (points_ (spline_base empty_spline))
               < get_min_segments (spline_base empty_spline) - 1)
    by (vm_compute; reflexivity).
  destruct (try_add_point_buffers_on_a_short_buffer arc_solver scribbling_solver
              spline_solver spline_solver empty_arc empty_spline q1)
    as [Harc Hspline].
  split; [split; assumption|].
  destruct (Harc Ha) as (Hres & Hpts & _).
  destruct (Hspline Hs) as (Hres' & Hpts' & _).
  split; split; assumption.
Defined.

End EntryRuns.
